(** * Numeric-series extraction of the retrieval chat demo

    A shallow embedding of [extract_data_for_visualization] and
    [detect_visualization_request] of [knowledge/docling/5-chat.py], with
    the library functions they call, and the properties the specification
    states about them.

    Modelling choices.
    - A text is a [string] whose characters are the code points 0..255
      (the Latin-1 block of Unicode).  The character classes [\d], [\s],
      [\w], [str.strip] and [str.lower] are the ones Python's Unicode
      database gives on that block.
    - A Python [float] is a binary64 number, represented by [spec_float]
      with precision 53 and maximal exponent 1024; [float(s)] is the decimal
      literal rounded to nearest, ties to even, and the comparisons are
      those of IEEE 754.
    - [re.findall] is a backtracking matcher over the pattern language the
      source uses: a sequence of character classes, each taken once,
      optionally, or repeated greedily or lazily, with two capture groups.
    - The dictionary [data] is a record; the loops that append to its three
      lists are folds that pass the record along.

    The proofs go through one representation lemma, [extract_of_points]:
    the categories and values returned are those of the ten first points of
    the sorted list of collected points, the labels those of all collected
    points in collection order. *)

From Stdlib Require Import Bool Arith NArith ZArith Lia List.
From Stdlib Require Import Ascii String DecimalString.
From Stdlib Require Import Floats.SpecFloat.
From Stdlib Require Import Sorting.Sorted Sorting.Permutation.
Import ListNotations.

Local Open Scope string_scope.
Local Open Scope bool_scope.

(** ** Characters *)

Module Char.

Definition code (c : ascii) : N := N_of_ascii c.

Definition in_range (lo hi : N) (c : ascii) : bool :=
  (lo <=? code c)%N && (code c <=? hi)%N.

Definition is_code (n : N) (c : ascii) : bool := (code c =? n)%N.

(** [\d]: the decimal digits (category Nd). *)
Definition is_decimal (c : ascii) : bool := in_range 48 57 c.

(** [\s] and [str.isspace]: TAB..CR, FS..US, SPACE, NEL, NBSP. *)
Definition is_space (c : ascii) : bool :=
  in_range 9 13 c || in_range 28 32 c || is_code 133 c || is_code 160 c.

(** [str.isalpha]: the letters. *)
Definition is_alpha (c : ascii) : bool :=
  in_range 65 90 c || in_range 97 122 c
  || is_code 170 c || is_code 181 c || is_code 186 c
  || in_range 192 214 c || in_range 216 246 c || in_range 248 255 c.

(** Digits and numerics that are not decimal: the superscripts 1, 2, 3 and
    the vulgar fractions. *)
Definition is_other_numeric (c : ascii) : bool :=
  is_code 178 c || is_code 179 c || is_code 185 c || in_range 188 190 c.

(** [str.isalnum]. *)
Definition is_alnum (c : ascii) : bool :=
  is_alpha c || is_decimal c || is_other_numeric c.

(** [\w]: alphanumeric or the underscore. *)
Definition is_word (c : ascii) : bool := is_alnum c || is_code 95 c.

Definition is_upper (c : ascii) : bool :=
  in_range 65 90 c || in_range 192 214 c || in_range 216 222 c.

Definition is_ascii_lower (c : ascii) : bool := in_range 97 122 c.
Definition is_ascii_upper (c : ascii) : bool := in_range 65 90 c.

(** [str.lower] on one character. *)
Definition lower (c : ascii) : ascii :=
  if is_upper c then ascii_of_N (code c + 32) else c.

Definition upper_ascii (c : ascii) : ascii :=
  if is_ascii_lower c then ascii_of_N (code c - 32) else c.

End Char.

(** ** Strings *)

Module Str.

Fixpoint map (f : ascii -> ascii) (s : string) : string :=
  match s with
  | EmptyString => EmptyString
  | String c s' => String (f c) (map f s')
  end.

Fixpoint filter (f : ascii -> bool) (s : string) : string :=
  match s with
  | EmptyString => EmptyString
  | String c s' => if f c then String c (filter f s') else filter f s'
  end.

Fixpoint forallb (f : ascii -> bool) (s : string) : bool :=
  match s with
  | EmptyString => true
  | String c s' => f c && forallb f s'
  end.

Fixpoint count (f : ascii -> bool) (s : string) : nat :=
  match s with
  | EmptyString => 0
  | String c s' => (if f c then 1 else 0) + count f s'
  end.

Definition is_empty (s : string) : bool :=
  match s with EmptyString => true | String _ _ => false end.

(** [s.lower()]. *)
Definition lower (s : string) : string := map Char.lower s.

(** [needle in hay]. *)
Fixpoint contains (needle hay : string) : bool :=
  String.prefix needle hay
  || match hay with
     | EmptyString => false
     | String _ hay' => contains needle hay'
     end.

Fixpoint lstrip (s : string) : string :=
  match s with
  | EmptyString => EmptyString
  | String c s' => if Char.is_space c then lstrip s' else s
  end.

Fixpoint rstrip (s : string) : string :=
  match s with
  | EmptyString => EmptyString
  | String c s' =>
      let r := rstrip s' in
      if Char.is_space c && is_empty r then EmptyString else String c r
  end.

(** [s.strip()]. *)
Definition strip (s : string) : string := rstrip (lstrip s).

(** [re.sub(r'\s+', ' ', s)]: every maximal run of whitespace becomes one
    space.  [in_run] tells that the previous character was whitespace. *)
Fixpoint collapse (in_run : bool) (s : string) : string :=
  match s with
  | EmptyString => EmptyString
  | String c s' =>
      if Char.is_space c
      then if in_run then collapse true s' else String " " (collapse true s')
      else String c (collapse false s')
  end.

Definition sub_spaces (s : string) : string := collapse false s.

(** [re.sub(r'[^\w\s\-&]', '', s)]. *)
Definition keep_label_char (c : ascii) : bool :=
  Char.is_word c || Char.is_space c || Char.is_code 45 c || Char.is_code 38 c.

Definition sub_special (s : string) : string := filter keep_label_char s.

(** [s.replace(',', '')]. *)
Definition remove_commas (s : string) : string :=
  filter (fun c => negb (Char.is_code 44 c)) s.

(** [s.title()] on ASCII text: a letter is upper-cased when it follows a
    character that is not a letter, lower-cased otherwise.  The source only
    applies it to the fixed keywords. *)
Fixpoint title_from (prev_cased : bool) (s : string) : string :=
  match s with
  | EmptyString => EmptyString
  | String c s' =>
      let cased := Char.is_ascii_lower c || Char.is_ascii_upper c in
      String (if prev_cased then Char.lower c else Char.upper_ascii c)
             (title_from cased s')
  end.

Definition title (s : string) : string := title_from false s.

End Str.

(** ** Regular expressions

    The patterns of the source are sequences of single-character classes
    under a quantifier; [grp] says which capture group an item belongs
    to (0 for none). *)

Module Re.

Inductive quant := One | Opt | Star | Plus | LazyPlus.

Record item := Item { cls : ascii -> bool; q : quant; grp : nat }.

Definition pattern := list item.

(** The two captured groups and the number of characters matched. *)
Record capture := Capture { g1 : string; g2 : string; width : nat }.

Definition no_capture : capture := Capture "" "" 0.

Definition take (g : nat) (c : ascii) (r : capture) : capture :=
  match g with
  | 1 => Capture (String c (g1 r)) (g2 r) (S (width r))
  | 2 => Capture (g1 r) (String c (g2 r)) (S (width r))
  | _ => Capture (g1 r) (g2 r) (S (width r))
  end.

Definition or_else {A} (x y : option A) : option A :=
  match x with Some _ => x | None => y end.

Section Repeat.
Variable f : ascii -> bool.
Variable g : nat.
(** What remains of the pattern, as a matcher on the rest of the text. *)
Variable k : string -> option capture.

(** Greedy repetition: one more character first, the rest of the
    pattern when that fails. *)
Fixpoint greedy (s : string) : option capture :=
  match s with
  | EmptyString => k s
  | String c s' =>
      if f c
      then or_else (option_map (take g c) (greedy s')) (k s)
      else k s
  end.

(** Lazy repetition: the rest of the pattern first, one more character
    when that fails. *)
Fixpoint lazy (s : string) : option capture :=
  or_else (k s)
    match s with
    | EmptyString => None
    | String c s' =>
        if f c then option_map (take g c) (lazy s') else None
    end.

Definition one (rep : string -> option capture) (s : string)
  : option capture :=
  match s with
  | EmptyString => None
  | String c s' => if f c then option_map (take g c) (rep s') else None
  end.
End Repeat.

(** Match [p] at the start of [s], with Python's backtracking priorities. *)
Fixpoint match_here (p : pattern) (s : string) {struct p} : option capture :=
  match p with
  | [] => Some no_capture
  | i :: p' =>
      let k := match_here p' in
      match q i with
      | One => one (cls i) (grp i) k s
      | Opt => or_else (one (cls i) (grp i) k s) (k s)
      | Star => greedy (cls i) (grp i) k s
      | Plus => one (cls i) (grp i) (greedy (cls i) (grp i) k) s
      | LazyPlus => one (cls i) (grp i) (lazy (cls i) (grp i) k) s
      end
  end.

(** [re.findall(p, s)]: the leftmost match at each position, scanning on
    after the end of every match.  [skip] counts the characters of the last
    match still to pass. *)
Fixpoint findall_from (p : pattern) (skip : nat) (s : string)
  : list (string * string) :=
  match skip with
  | S n =>
      match s with
      | EmptyString => []
      | String _ s' => findall_from p n s'
      end
  | O =>
      match match_here p s with
      | Some r =>
          (g1 r, g2 r) ::
          match s with
          | EmptyString => []
          | String _ s' => findall_from p (Nat.pred (width r)) s'
          end
      | None =>
          match s with
          | EmptyString => []
          | String _ s' => findall_from p 0 s'
          end
      end
  end.

Definition findall (p : pattern) (s : string) : list (string * string) :=
  findall_from p 0 s.

(** *** Pattern syntax *)

Definition chr (c : ascii) : ascii -> bool := Ascii.eqb c.
Definition none_of (l : list ascii) : ascii -> bool :=
  fun c => negb (existsb (Ascii.eqb c) l).
Definition one_of (l : list ascii) : ascii -> bool :=
  fun c => existsb (Ascii.eqb c) l.

Definition newline : ascii := ascii_of_N 10.

(** A literal word. *)
Fixpoint lit (s : string) : pattern :=
  match s with
  | EmptyString => []
  | String c s' => Item (chr c) One 0 :: lit s'
  end.

(** Optional whitespace. *)
Definition spaces : pattern := [Item Char.is_space Star 0].

(** The second group of every extraction pattern: digits or commas, an
    optional dot, digits. *)
Definition number : pattern :=
  [ Item (fun c => Char.is_decimal c || chr "," c) Plus 2;
    Item (chr ".") Opt 2;
    Item Char.is_decimal Star 2 ].

(** A greedy first group: one or more characters outside [excluded]. *)
Definition label_greedy (excluded : list ascii) : pattern :=
  [Item (none_of excluded) Plus 1].

(** The lazy first group of the domain patterns: one or more characters
    other than the colon, as few as possible. *)
Definition label_lazy : pattern := [Item (none_of [":"%char]) LazyPlus 1].

End Re.

(** ** Floating-point values *)

Module Flt.

Definition float := spec_float.

Definition prec : Z := 53.
Definition emax : Z := 1024.

Definition zero : float := S754_zero false.

(** [m / 10^k] rounded to binary64. *)
Definition of_decimal (m : Z) (k : nat) : float :=
  match m with
  | Zpos p =>
      SFdiv prec emax (S754_finite false p 0)
            (S754_finite false (Z.to_pos (10 ^ Z.of_nat k)) 0)
  | _ => zero
  end.

Definition digit_value (c : ascii) : Z := Z.of_N (Char.code c) - 48.

(** The number a string of decimal digits denotes after the digits [acc];
    [None] when a character is not a digit. *)
Fixpoint digits_value (acc : Z) (s : string) : option Z :=
  match s with
  | EmptyString => Some acc
  | String c s' =>
      if Char.is_decimal c
      then digits_value (10 * acc + digit_value c) s'
      else None
  end.

(** The text before the first dot, and the text after it if there is one. *)
Fixpoint split_dot (s : string) : string * option string :=
  match s with
  | EmptyString => (EmptyString, None)
  | String c s' =>
      if Ascii.eqb c "."
      then (EmptyString, Some s')
      else let (a, b) := split_dot s' in (String c a, b)
  end.

(** [float(s)] on the texts the source passes to it, which are made of
    digits and dots (lemma [float_arguments]): the decimal number they
    write, or [None], which stands for [ValueError], when they have no
    digit or a second dot (lemma [float_of_string_defined]). *)
Definition float_of_string (s : string) : option float :=
  let (int_part, frac) := split_dot s in
  let frac_part := match frac with Some f => f | None => EmptyString end in
  if Str.is_empty int_part && Str.is_empty frac_part then None
  else
    match digits_value 0 (int_part ++ frac_part) with
    | Some m => Some (of_decimal m (String.length frac_part))
    | None => None
    end.

(** [a < b], [a <= b] and [a > 0]. *)
Definition ltb (a b : float) : bool := SFltb a b.
Definition leb (a b : float) : bool := SFleb a b.
Definition is_positive (a : float) : bool := ltb zero a.

(** *** Formatting with [,.2f] *)

(** [num / den] rounded to the nearest integer, ties to even. *)
Definition round_half_even (num den : Z) : Z :=
  let q := (num / den)%Z in
  let r := (num mod den)%Z in
  match (2 * r ?= den)%Z with
  | Lt => q
  | Gt => (q + 1)%Z
  | Eq => if Z.even q then q else (q + 1)%Z
  end.

(** The value times 100, rounded to an integer. *)
Definition hundredths (m : positive) (e : Z) : Z :=
  match e with
  | Zneg p => round_half_even (Zpos m * 100) (2 ^ Zpos p)
  | _ => (Zpos m * 100 * 2 ^ e)%Z
  end.

Definition digit_char (d : Z) : ascii := ascii_of_N (Z.to_N d + 48).

(** The decimal digits of a natural number, as [str] writes them. *)
Definition decimal (n : Z) : string :=
  NilZero.string_of_uint (N.to_uint (Z.to_N n)).

(** A comma before every group of three digits, counted from the right. *)
Fixpoint group (s : string) : string :=
  match s with
  | EmptyString => EmptyString
  | String c s' =>
      String c
        (if negb (Str.is_empty s') && (String.length s' mod 3 =? 0)%nat
         then String "," (group s')
         else group s')
  end.

Definition two_digits (n : Z) : string :=
  String (digit_char (n / 10)) (String (digit_char (n mod 10)) EmptyString).

Definition sign_text (s : bool) : string := if s then "-" else "".

(** [f"{v:,.2f}"]. *)
Definition format (v : float) : string :=
  match v with
  | S754_zero s => sign_text s ++ "0.00"
  | S754_infinity s => sign_text s ++ "inf"
  | S754_nan => "nan"
  | S754_finite s m e =>
      let h := hundredths m e in
      sign_text s ++ group (decimal (h / 100)) ++ "." ++ two_digits (h mod 100)
  end.

(** *** Reading a value back *)

(** [v] is the number [num / den]: with [v = m * 2^e], [den * m * 2^e]
    equals [num]. *)
Definition exactly (num den : Z) (v : float) : bool :=
  match v with
  | S754_zero _ => (num =? 0)%Z
  | S754_finite false m e =>
      match e with
      | Zneg p => (den * Zpos m =? num * 2 ^ Zpos p)%Z
      | _ => (den * Zpos m * 2 ^ e =? num)%Z
      end
  | _ => false
  end.

(** [v] is a binary64 number at most half a unit in the last place away
    from [num / den]. *)
Definition nearest (num den : Z) (v : float) : bool :=
  match v with
  | S754_finite false m e =>
      bounded prec emax m e
      && match e with
         | Zneg p =>
             (2 * Z.abs (den * Zpos m - num * 2 ^ Zpos p) <=? den)%Z
         | _ => (2 * Z.abs (den * Zpos m * 2 ^ e - num) <=? den * 2 ^ e)%Z
         end
  | _ => false
  end.

End Flt.

(** ** The extraction result *)

Record Data := mkData {
  categories : list string;
  values : list Flt.float;
  labels : list string;
  chart_type : string;
  title : string
}.

(** The dictionary [extract_data_for_visualization] starts from. *)
Definition empty_data : Data :=
  mkData [] [] [] "bar" "Real Estate Data Visualization".

(** The three [append] calls that record one data point. *)
Definition add_point (data : Data) (category : string) (value : Flt.float)
  : Data :=
  mkData (categories data ++ [category])
         (values data ++ [value])
         (labels data ++ [category ++ ": " ++ Flt.format value])
         (chart_type data) (title data).

(** ** The pattern table *)

Section Patterns.
Import Re.
Local Open Scope list_scope.
Local Open Scope char_scope.

Definition tail_number : pattern := spaces ++ number.

Definition patterns : list pattern :=
  [ (* Category: Value *)
    label_greedy [":"; "="; newline] ++ [Item (one_of [":"; "="]) One 0]
      ++ tail_number;
    (* Category = Value *)
    label_greedy ["="; newline] ++ lit "=" ++ tail_number;
    (* Category, Value *)
    label_greedy [","; newline] ++ lit "," ++ tail_number;
    (* Credit directed: KD X.X billion *)
    label_lazy ++ spaces ++ lit "Credit" ++ spaces ++ lit "directed:"
      ++ spaces ++ lit "KD" ++ tail_number ++ spaces ++ lit "billion";
    (* Credit directed: X.X *)
    label_lazy ++ spaces ++ lit "Credit" ++ spaces ++ lit "directed:"
      ++ tail_number;
    (* Share: X.X% *)
    label_lazy ++ spaces ++ lit "Share:" ++ tail_number ++ lit "%";
    (* Total: KD X.X billion *)
    label_lazy ++ spaces ++ lit "Total:" ++ spaces ++ lit "KD" ++ tail_number
      ++ spaces ++ lit "billion";
    (* Total: X.X billion *)
    label_lazy ++ spaces ++ lit "Total:" ++ tail_number ++ spaces
      ++ lit "billion";
    (* KD X.X billion *)
    label_lazy ++ spaces ++ lit "KD" ++ tail_number ++ spaces ++ lit "billion";
    (* X.X billion *)
    label_lazy ++ tail_number ++ spaces ++ lit "billion";
    (* X.X million *)
    label_lazy ++ tail_number ++ spaces ++ lit "million";
    (* X.X thousand *)
    label_lazy ++ tail_number ++ spaces ++ lit "thousand";
    (* X.X% *)
    label_lazy ++ tail_number ++ lit "%";
    (* X.X units *)
    label_lazy ++ tail_number ++ spaces ++ lit "units";
    (* X.X properties *)
    label_lazy ++ tail_number ++ spaces ++ lit "properties" ].

(** The pattern of the fallback: digits, an optional dot, digits, all in
    one group. *)
Definition number_pattern : pattern :=
  [ Item Char.is_decimal Plus 1; Item (chr ".") Opt 1;
    Item Char.is_decimal Star 1 ].

End Patterns.

Definition skip_words : list string :=
  ["source:"; "page"; "file"; "pdf"; "report"; "title"].

Definition real_estate_keywords : list string :=
  [ "real estate"; "construction"; "housing"; "credit"; "facilities";
    "instalment"; "private"; "model"; "total"; "residential"; "commercial";
    "investment"; "development"; "market"; "price"; "value" ].

(** ** extract_data_for_visualization *)

(** The label clean-up: collapse whitespace, strip, drop special
    characters. *)
Definition clean_category (category : string) : string :=
  Str.sub_special (Str.strip (Str.sub_spaces category)).

(** The test that lets a cleaned label through. *)
Definition acceptable (category : string) : bool :=
  (3 <? String.length category)%nat
  && negb (existsb (fun skip => Str.contains skip (Str.lower category))
                   skip_words).

(** What one raw match contributes before the duplicate test: the cleaned
    label and the value, or nothing. *)
Definition candidate (m : string * string) : option (string * Flt.float) :=
  let category := Str.strip (fst m) in
  let value_str := Str.remove_commas (snd m) in
  match Flt.float_of_string value_str with
  | None => None                                 (* except ValueError *)
  | Some value =>
      if negb (Str.is_empty category) && Flt.is_positive value then
        let category := clean_category category in
        if acceptable category then Some (category, value) else None
      else None
  end.

Definition mem (s : string) (l : list string) : bool :=
  existsb (String.eqb s) l.

(** The body of the inner loop. *)
Definition process_match (data : Data) (m : string * string) : Data :=
  match candidate m with
  | Some (category, value) =>
      if negb (mem category (categories data))
      then add_point data category value
      else data
  | None => data
  end.

(** The two nested loops over the patterns and their matches. *)
Definition scan_patterns (text : string) (data : Data) : Data :=
  fold_left
    (fun d p => fold_left process_match (Re.findall p text) d)
    patterns data.

(** What one keyword contributes in the fallback: the keyword in title
    case with the first number of the text, or nothing. *)
Definition keyword_candidate (text keyword : string)
  : option (string * Flt.float) :=
  if Str.contains keyword (Str.lower text) then
    match List.map fst (Re.findall number_pattern text) with
    | [] => None
    | first :: _ =>
        match Flt.float_of_string first with
        | None => None                           (* except ValueError *)
        | Some value =>
            if Flt.is_positive value
            then Some (Str.title keyword, value)
            else None
        end
    end
  else None.

(** The body of the fallback loop. *)
Definition process_keyword (text : string) (data : Data) (keyword : string)
  : Data :=
  match keyword_candidate text keyword with
  | Some (category, value) => add_point data category value
  | None => data
  end.

(** The fallback, entered when the patterns found nothing. *)
Definition fallback (text : string) (data : Data) : Data :=
  match values data with
  | [] => fold_left (process_keyword text) real_estate_keywords data
  | _ :: _ => data
  end.

(** [sorted(..., key=lambda x: x[1], reverse=True)]: a stable sort by
    decreasing value.  An element goes after the ones with a greater value
    and before the ones, later in the input, with an equal or smaller
    value.  The result is a sorted permutation of the input in which equal
    values keep their order (lemmas [sort_desc_perm], [sort_desc_sorted],
    [sort_desc_stable]), which is what determines the output of a stable
    sort. *)
Fixpoint insert_desc (x : string * Flt.float) (l : list (string * Flt.float))
  : list (string * Flt.float) :=
  match l with
  | [] => [x]
  | y :: l' =>
      if Flt.ltb (snd x) (snd y) then y :: insert_desc x l' else x :: l
  end.

Fixpoint sort_desc (l : list (string * Flt.float))
  : list (string * Flt.float) :=
  match l with
  | [] => []
  | x :: l' => insert_desc x (sort_desc l')
  end.

(** The closing block: sort the pairs, keep the first ten.  The [labels]
    entry is not touched. *)
Definition finalize (data : Data) : Data :=
  match values data with
  | [] => data
  | _ :: _ =>
      let sorted_data := sort_desc (combine (categories data) (values data)) in
      let cats := List.map fst sorted_data in
      let vals := List.map snd sorted_data in
      if (10 <? List.length cats)%nat
      then mkData (firstn 10 cats) (firstn 10 vals) (labels data)
                  (chart_type data) (title data)
      else mkData cats vals (labels data) (chart_type data) (title data)
  end.

(** The data as it stands before the closing block. *)
Definition collect (text : string) : Data :=
  fallback text (scan_patterns text empty_data).

Definition extract_data_for_visualization (text : string) : Data :=
  finalize (collect text).

(** ** detect_visualization_request *)

Definition explicit_visualization_keywords : list string :=
  [ "create chart"; "make chart"; "show chart"; "display chart";
    "create graph"; "make graph"; "show graph"; "display graph";
    "create plot"; "make plot"; "show plot"; "display plot";
    "draw chart"; "draw graph"; "draw plot";
    "visualize"; "visualise"; "visualization"; "visualisation";
    "chart of"; "graph of"; "plot of";
    "bar chart"; "pie chart"; "line chart"; "scatter plot";
    "heatmap"; "histogram" ].

Definition text_only_keywords : list string :=
  [ "what is"; "what are"; "how much"; "how many"; "when"; "where"; "why";
    "summarize"; "summary"; "explain"; "describe"; "tell me about";
    "average"; "total"; "price"; "rent"; "cost"; "value"; "trends";
    "analysis"; "overview"; "insights"; "details"; "information" ].

(** [any(keyword in text for keyword in keywords)]. *)
Definition any_in (keywords : list string) (text : string) : bool :=
  existsb (fun keyword => Str.contains keyword text) keywords.

Definition detect_visualization_request (user_input : string) : bool :=
  let user_input_lower := Str.lower user_input in
  let has_visualization_keyword :=
    any_in explicit_visualization_keywords user_input_lower in
  let has_text_only_keywords :=
    any_in text_only_keywords user_input_lower in
  has_visualization_keyword && negb has_text_only_keywords.

(** ** detect_chart_type *)

Definition detect_chart_type (user_input : string) : string :=
  let user_input_lower := Str.lower user_input in
  if Str.contains "bar chart" user_input_lower
     || Str.contains "bar graph" user_input_lower then "bar"
  else if Str.contains "pie chart" user_input_lower
          || Str.contains "pie graph" user_input_lower then "pie"
  else if Str.contains "line chart" user_input_lower
          || Str.contains "line graph" user_input_lower then "line"
  else if Str.contains "scatter plot" user_input_lower
          || Str.contains "scatter chart" user_input_lower then "scatter"
  else if any_in ["bar"; "column"; "vertical"; "horizontal"] user_input_lower
       then "bar"
  else if any_in ["pie"; "circle"; "donut"; "sector"] user_input_lower
       then "pie"
  else if any_in ["line"] user_input_lower then "line"
  else if any_in ["scatter"; "point"; "correlation"] user_input_lower
       then "scatter"
  else "bar".

(** ** detect_definition_request *)

Definition definition_keywords : list string :=
  [ "what is"; "what are"; "definition"; "define"; "what does mean";
    "what does this mean"; "explain"; "describe"; "tell me about";
    "meaning of"; "concept of"; "understanding" ].

Definition detect_definition_request (user_input : string) : bool :=
  let user_input_lower := Str.lower user_input in
  any_in definition_keywords user_input_lower.

(** ** The reply of the chart branch

    What the chat stores as its response when the prompt is a visualization
    request: the extraction runs on the retrieved context, and the reply
    names the chart kind and the number of categories, or says that no
    data was found.  The drawing of the figure is left to the chart
    library and has no part in the reply. *)

Definition no_data_response : string :=
  "No numerical data found in the context for visualization. Try asking about specific numbers, percentages, or values from the report.".

(** [str(n)] for a length. *)
Definition str_of_nat (n : nat) : string :=
  NilZero.string_of_uint (Nat.to_uint n).

Definition visualization_response (prompt context : string) : string :=
  let viz_data := extract_data_for_visualization context in
  match values viz_data with
  | _ :: _ =>
      let chart_type := detect_chart_type prompt in
      "Generated " ++ chart_type ++ " chart with "
        ++ str_of_nat (List.length (categories viz_data)) ++ " data points"
  | [] => no_data_response
  end.

(** The chart rules in the order they are tried: the two-word phrases of
    each kind, then the single words of each kind. *)
Definition chart_rules : list (string * list string) :=
  [ ("bar", ["bar chart"; "bar graph"]);
    ("pie", ["pie chart"; "pie graph"]);
    ("line", ["line chart"; "line graph"]);
    ("scatter", ["scatter plot"; "scatter chart"]);
    ("bar", ["bar"; "column"; "vertical"; "horizontal"]);
    ("pie", ["pie"; "circle"; "donut"; "sector"]);
    ("line", ["line"]);
    ("scatter", ["scatter"; "point"; "correlation"]) ].

(** The kind of the first rule one of whose phrases occurs in the text. *)
Fixpoint first_rule (rules : list (string * list string)) (text : string)
  : option string :=
  match rules with
  | [] => None
  | (kind, phrases) :: rules' =>
      if any_in phrases text then Some kind else first_rule rules' text
  end.

(** The definition keywords that are not text-only keywords. *)
Definition definition_only_keywords : list string :=
  [ "definition"; "define"; "what does mean"; "what does this mean";
    "meaning of"; "concept of"; "understanding" ].

(** ** Texts over all of Unicode

    The answer of the language model and the texts of the document store
    are not confined to the code points below 256, and the literals of
    [format_definition_response] are not either: here a text is the list
    of its code points.  The functions of this part only compare and move
    characters, apart from [strip], which needs the whitespace table. *)

Module U.

Definition text : Type := list N.

(** The text of an ASCII literal. *)
Definition lit (s : string) : text :=
  List.map N_of_ascii (list_ascii_of_string s).

Definition newline : N := 10.

(** [str.isspace] on one code point. *)
Definition is_space (c : N) : bool :=
  ((9 <=? c) && (c <=? 13) || (28 <=? c) && (c <=? 32)
   || (c =? 133) || (c =? 160) || (c =? 5760)
   || (8192 <=? c) && (c <=? 8202)
   || (c =? 8232) || (c =? 8233) || (c =? 8239) || (c =? 8287)
   || (c =? 12288))%N.

Fixpoint eqb (a b : text) : bool :=
  match a, b with
  | [], [] => true
  | x :: a', y :: b' => (x =? y)%N && eqb a' b'
  | _, _ => false
  end.

(** [s.startswith(p)]. *)
Fixpoint prefixb (p s : text) : bool :=
  match p, s with
  | [], _ => true
  | x :: p', y :: s' => (x =? y)%N && prefixb p' s'
  | _ :: _, [] => false
  end.

(** [needle in hay]. *)
Fixpoint contains (needle hay : text) : bool :=
  prefixb needle hay
  || match hay with
     | [] => false
     | _ :: hay' => contains needle hay'
     end.

Fixpoint lstrip (s : text) : text :=
  match s with
  | [] => []
  | c :: s' => if is_space c then lstrip s' else s
  end.

Fixpoint rstrip (s : text) : text :=
  match s with
  | [] => []
  | c :: s' =>
      match rstrip s' with
      | [] => if is_space c then [] else [c]
      | r => c :: r
      end
  end.

(** [s.strip()]. *)
Definition strip (s : text) : text := rstrip (lstrip s).

(** [s.split(sep)] for a separator that is not empty: the text is cut at
    every occurrence of [sep], found from left to right, the search going on
    after the end of each occurrence.  [skip] counts the characters of the
    last occurrence still to pass. *)
Fixpoint split_from (sep : text) (skip : nat) (s : text) : list text :=
  match s with
  | [] => [[]]
  | c :: s' =>
      match skip with
      | S n => split_from sep n s'
      | O =>
          if prefixb sep s
          then [] :: split_from sep (Nat.pred (List.length sep)) s'
          else match split_from sep 0 s' with
               | part :: parts => (c :: part) :: parts
               | [] => [[c]]
               end
      end
  end.

Definition split (sep s : text) : list text := split_from sep 0 s.

(** [sep.join(parts)]. *)
Fixpoint join (sep : text) (parts : list text) : text :=
  match parts with
  | [] => []
  | [p] => p
  | p :: parts' => (p ++ sep ++ join sep parts')%list
  end.

(** [s.replace(old, new)] for an [old] that is not empty. *)
Fixpoint replace_from (old new : text) (skip : nat) (s : text) : text :=
  match s with
  | [] => []
  | c :: s' =>
      match skip with
      | S n => replace_from old new n s'
      | O =>
          if prefixb old s
          then (new ++ replace_from old new (Nat.pred (List.length old)) s')%list
          else c :: replace_from old new 0 s'
      end
  end.

Definition replace (old new s : text) : text := replace_from old new 0 s.

Definition is_empty (s : text) : bool :=
  match s with [] => true | _ :: _ => false end.

End U.

(** ** format_definition_response *)

(** The three characters the source writes for a bullet, U+201A, U+00C4,
    U+00A2, and the four it writes before the word Definition, U+F8FF,
    U+00FC, U+00EC, U+00F1. *)
Definition bullet : U.text := [8218; 196; 162]%N.

Definition definition_header : U.text :=
  (U.lit "## " ++ [63743; 252; 236; 241]%N ++ U.lit " Definition"
     ++ [U.newline; U.newline])%list.

Definition asterisk : U.text := U.lit "*".

(** One turn of the loop over the sentences. *)
Definition add_sentence (formatted sentence : U.text) : U.text :=
  if negb (U.is_empty (U.strip sentence))
  then (formatted ++ bullet ++ U.lit " " ++ U.strip sentence
          ++ [U.newline])%list
  else formatted.

Definition format_definition_response (response_text : U.text) : U.text :=
  if U.contains bullet response_text || U.contains asterisk response_text
  then
    let formatted :=
      U.replace asterisk bullet (U.replace bullet bullet response_text) in
    if negb (U.prefixb (U.lit "##") response_text)
    then (definition_header ++ formatted)%list
    else formatted
  else
    let sentences := U.split (U.lit ". ") response_text in
    if (1 <? List.length sentences)%nat
    then fold_left add_sentence sentences definition_header
    else response_text.

(** The line the loop adds for one sentence. *)
Definition bullet_line (sentence : U.text) : U.text :=
  if negb (U.is_empty (U.strip sentence))
  then (bullet ++ U.lit " " ++ U.strip sentence ++ [U.newline])%list
  else [].

(** ** get_context and the reading of its chunks

    The rows are those the vector search returned, as [to_pandas] hands
    them over; the embedding of the query and the search itself are the
    service's and the database's.  A row holds the chunk text and, in its
    metadata, a file name, the page numbers and a title.  An absent file
    name or title is the empty text, which is how the truth tests of the
    source see them.  The page numbers are [None] when absent and a numpy
    array otherwise: that is what the list field of a struct column is in
    the data frame. *)

Record Row := mkRow {
  row_text : U.text;
  row_filename : U.text;
  row_page_numbers : option (list N);
  row_title : U.text
}.

(** [str(p)] for a page number. *)
Definition str_of_N (p : N) : U.text :=
  U.lit (NilZero.string_of_uint (N.to_uint p)).

Definition page_part (page_numbers : list N) : U.text :=
  (U.lit "p. " ++ U.join (U.lit ", ") (List.map str_of_N page_numbers))%list.

Definition blank_line : U.text := [U.newline; U.newline].

(** The elements a loop over the page numbers visits. *)
Definition elements (page_numbers : option (list N)) : list N :=
  match page_numbers with
  | Some pages => pages
  | None => []
  end.

Section Context.

(** The truth value of an empty array is False, with a warning, in NumPy
    before 2.2 and a [ValueError] from 2.2 on; the source does not say
    which NumPy it runs on. *)
Variable empty_array_raises : bool.

(** The test [if page_numbers:].  [None] is false; an array of one
    element has the truth value of that element, so the page 0 is false;
    an array of two or more elements has no truth value: the result [None]
    stands for the [ValueError] that numpy raises. *)
Definition truth (page_numbers : option (list N)) : option bool :=
  match page_numbers with
  | None => Some false
  | Some [] => if empty_array_raises then None else Some false
  | Some [p] => Some (negb (p =? 0)%N)
  | Some (_ :: _ :: _) => None
  end.

Definition source_parts (row : Row) : option (list U.text) :=
  let parts :=
    if negb (U.is_empty (row_filename row)) then [row_filename row] else [] in
  match truth (row_page_numbers row) with
  | Some true =>
      Some (parts ++ [page_part (elements (row_page_numbers row))])%list
  | Some false => Some parts
  | None => None
  end.

(** The citation after [Source: ]. *)
Definition source_text (row : Row) : option U.text :=
  option_map (U.join (U.lit " - ")) (source_parts row).

Definition source_of (row : Row) : option U.text :=
  match source_text row with
  | Some joined =>
      let source := ([U.newline] ++ U.lit "Source: " ++ joined)%list in
      Some (if negb (U.is_empty (row_title row))
            then (source ++ [U.newline] ++ U.lit "Title: " ++ row_title row)%list
            else source)
  | None => None
  end.

Definition chunk_of (row : Row) : option U.text :=
  option_map (app (row_text row)) (source_of row).

(** The loop over the rows: an exception in one row ends the call. *)
Fixpoint contexts_of (results : list Row) : option (list U.text) :=
  match results with
  | [] => Some []
  | row :: rest =>
      match chunk_of row, contexts_of rest with
      | Some chunk, Some contexts => Some (chunk :: contexts)
      | _, _ => None
      end
  end.

Definition get_context (results : list Row) : option U.text :=
  option_map (U.join blank_line) (contexts_of results).

End Context.

(** The dictionary of a comprehension, as the list of its items in the
    order they are produced; a later item replaces an earlier one of the
    same key, so [get] returns the value of the last item of the key. *)
Definition dict_get (key default : U.text) (items : list (U.text * U.text))
  : U.text :=
  fold_left (fun found item => if U.eqb (fst item) key then snd item
                               else found)
            items default.

Definition colon_space : U.text := U.lit ": ".

(** [line.split(": ")[0]: line.split(": ")[1]]; [None] stands for the
    [IndexError] of a split with one part. *)
Definition dict_item (line : U.text) : option (U.text * U.text) :=
  match U.split colon_space line with
  | key :: value :: _ => Some (key, value)
  | _ => None
  end.

(** The items of the lines that contain [": "]. *)
Fixpoint metadata_items (lines : list U.text)
  : option (list (U.text * U.text)) :=
  match lines with
  | [] => Some []
  | line :: lines' =>
      if U.contains colon_space line then
        match dict_item line, metadata_items lines' with
        | Some item, Some items => Some (item :: items)
        | _, _ => None
        end
      else metadata_items lines'
  end.

Definition unknown_source : U.text := U.lit "Unknown source".
Definition default_title : U.text := U.lit "KFH Real Estate Report 2025 Q1".

(** What the chat shows for one chunk: its text, its source and its
    title. *)
Definition read_chunk (chunk : U.text) : option (U.text * U.text * U.text) :=
  match U.split [U.newline] chunk with
  | [] => None                                   (* parts[0] *)
  | text :: lines =>
      match metadata_items lines with
      | None => None
      | Some metadata =>
          Some (text,
                dict_get (U.lit "Source") unknown_source metadata,
                dict_get (U.lit "Title") default_title metadata)
      end
  end.

(** The loop over [context.split("\n\n")]. *)
Fixpoint read_chunks (chunks : list U.text)
  : option (list (U.text * U.text * U.text)) :=
  match chunks with
  | [] => Some []
  | chunk :: chunks' =>
      match read_chunk chunk, read_chunks chunks' with
      | Some shown, Some rest => Some (shown :: rest)
      | _, _ => None
      end
  end.

Definition read_context (context : U.text)
  : option (list (U.text * U.text * U.text)) :=
  read_chunks (U.split blank_line context).

(** The rows whose page numbers have a truth value: no page numbers, or
    an array of one page, or an empty array where that does not raise. *)
Definition testable (empty_array_raises : bool) (row : Row) : bool :=
  match row_page_numbers row with
  | None => true
  | Some [] => negb empty_array_raises
  | Some [_] => true
  | Some (_ :: _ :: _) => false
  end.

(** The parts of the citation expected for a row: its file name, if any,
    and its page, if it has exactly one and that one is not 0. *)
Definition cited (row : Row) : list U.text :=
  ((if U.is_empty (row_filename row) then [] else [row_filename row])
   ++ match row_page_numbers row with
      | Some [p] =>
          if (p =? 0)%N then [] else [(U.lit "p. " ++ str_of_N p)%list]
      | _ => []
      end)%list.

Definition citation (row : Row) : U.text :=
  U.join (U.lit " - ") (cited row).

(** What is expected to be shown for a row. *)
Definition shown_of (row : Row) : U.text * U.text * U.text :=
  (row_text row, citation row,
   if U.is_empty (row_title row) then default_title else row_title row).

(** A row that the reading gives back: no line break in its text, file
    name and title, no colon in its file name and no colon followed by a
    space in its title. *)
Definition plain_row (row : Row) : Prop :=
  ~ In U.newline (row_text row)
  /\ ~ In U.newline (row_filename row)
  /\ ~ In U.newline (row_title row)
  /\ ~ In 58%N (row_filename row)
  /\ U.contains colon_space (row_title row) = false.

(** A first line and the lines under it, each after a line break. *)
Definition stack (first : U.text) (lines : list U.text) : U.text :=
  (first ++ flat_map (cons U.newline) lines)%list.

(** The two lines [get_context] writes under the text of a chunk. *)
Definition source_line (row : Row) : U.text :=
  (U.lit "Source: " ++ citation row)%list.

Definition title_line (row : Row) : U.text :=
  (U.lit "Title: " ++ row_title row)%list.

(** The chunk written for a row, as lines. *)
Definition written (row : Row) : U.text :=
  stack (row_text row)
    (source_line row
       :: if U.is_empty (row_title row) then [] else [title_line row]).

Definition is_digit_code (c : N) : Prop := (48 <= c <= 57)%N.

(** Three rows: one with file name, a page and title, one with none of
    them and one whose page is 0. *)
Definition sample_rows : list Row :=
  [ mkRow (U.lit "Prices rose.") (U.lit "report.pdf") (Some [3%N])
          (U.lit "Market");
    mkRow (U.lit "Rents fell.") [] None [];
    mkRow (U.lit "Sales grew.") (U.lit "cover.pdf") (Some [0%N]) [] ].

(** A result of the search with a chunk that spans two pages. *)
Definition two_page_rows : list Row :=
  [ mkRow (U.lit "Rents fell.") [] None [];
    mkRow (U.lit "Prices rose.") (U.lit "report.pdf") (Some [3; 4]%N)
          (U.lit "Market") ].

(** The example visualization queries that the sidebar of the chat
    shows to its user. *)
Definition example_visualization_queries : list string :=
  [ "Create a bar chart of governorate prices";
    "Show me a pie chart of market segments";
    "Make a line graph of quarterly trends";
    "Display a scatter plot of property values" ]%string.

(** ** The result as a list of data points

    The three parallel lists are read as one list of (label, value) pairs.
    The definitions below follow the words of the specification: the
    candidates in the order the patterns produce them, the rule that the
    first occurrence of a label wins, and the fallback. *)

Definition point : Type := string * Flt.float.

(** The display string of a data point. *)
Definition display (p : point) : string :=
  fst p ++ ": " ++ Flt.format (snd p).

Definition points (data : Data) : list point :=
  combine (categories data) (values data).

(** The data whose three lists are read off a list of points. *)
Definition of_points (l : list point) : Data :=
  mkData (List.map fst l) (List.map snd l) (List.map display l)
         "bar" "Real Estate Data Visualization".

(** The defined results of [f], in order. *)
Fixpoint omap {A B} (f : A -> option B) (l : list A) : list B :=
  match l with
  | [] => []
  | x :: l' =>
      match f x with
      | Some y => y :: omap f l'
      | None => omap f l'
      end
  end.

(** Every accepted candidate, pattern after pattern, match after match. *)
Definition candidates_of (ps : list Re.pattern) (text : string)
  : list point :=
  flat_map (fun p => omap candidate (Re.findall p text)) ps.

Definition candidates (text : string) : list point :=
  candidates_of patterns text.

(** A point is kept when its label is new. *)
Definition keep_first (acc : list point) (p : point) : list point :=
  if mem (fst p) (List.map fst acc) then acc else acc ++ [p].

Definition dedup (l : list point) : list point := fold_left keep_first l [].

(** The points of the fallback. *)
Definition keyword_points (text : string) : list point :=
  omap (keyword_candidate text) real_estate_keywords.


(** The data points collected before sorting. *)
Definition collected (text : string) : list point :=
  match dedup (candidates text) with
  | [] => keyword_points text
  | _ :: _ => dedup (candidates text)
  end.


(** The order of the sorted result: [a] is at least [b]. *)
Definition value_ge (a b : Flt.float) : Prop := Flt.leb b a = true.

(** The characters the clean-up leaves in a label: those of [\w], the
    space, the ampersand and the hyphen. *)
Definition label_char (c : ascii) : bool :=
  Char.is_word c || Char.is_code 32 c || Char.is_code 38 c
  || Char.is_code 45 c.

(** The characters the specification names: letters, digits, the space,
    the ampersand and the hyphen. *)
Definition spec_label_char (c : ascii) : bool :=
  Char.is_alnum c || Char.is_code 32 c || Char.is_code 38 c
  || Char.is_code 45 c.


(** The ten first points of the sorted list. *)
Definition top (l : list point) : list point := firstn 10 (sort_desc l).

Definition point_positive (p : point) : Prop :=
  Flt.is_positive (snd p) = true.

(** A whitespace character that survives the collapse is the space. *)
Definition plain_space (c : ascii) : bool :=
  negb (Char.is_space c) || Char.is_code 32 c.

Definition point_label_ok (p : point) : Prop :=
  Str.forallb label_char (fst p) = true.

(** The characters of the second group, and what is left of them once the
    commas are removed. *)
Definition number_char (c : ascii) : bool :=
  Char.is_decimal c || Re.chr "," c || Re.chr "." c.

Definition digit_or_dot (c : ascii) : bool :=
  Char.is_decimal c || Re.chr "." c.

(** The items of group [g0] only take characters of [ok]. *)
Definition item_within (g0 : nat) (ok : ascii -> bool) (i : Re.item) : Prop :=
  Re.grp i = g0 -> forall c, Re.cls i c = true -> ok c = true.

(** The matcher [k] only captures characters of [ok] in the group that
    [sel] reads. *)
Definition captures_within (sel : Re.capture -> string) (ok : ascii -> bool)
           (k : string -> option Re.capture) : Prop :=
  forall s r, k s = Some r -> Str.forallb ok (sel r) = true.

(** Two values that compare equal. *)
Definition same_value (a b : Flt.float) : bool :=
  negb (Flt.ltb a b) && negb (Flt.ltb b a).

(** The matcher [k] only captures, in the group that [sel] reads,
    characters of [ok] when the text it is run on is made of them. *)
Definition captures_from (sel : Re.capture -> string) (ok : ascii -> bool)
           (k : string -> option Re.capture) : Prop :=
  forall s r, Str.forallb ok s = true -> k s = Some r ->
              Str.forallb ok (sel r) = true.

Definition no_digit (c : ascii) : bool := negb (Char.is_decimal c).

(** The first number of the text, as the fallback reads it. *)
Definition first_number (text : string) : option string :=
  hd_error (List.map fst (Re.findall number_pattern text)).

(** The fallback keywords that occur in the text, in the order of the
    list. *)
Definition found_keywords (text : string) : list string :=
  filter (fun k => Str.contains k (Str.lower text)) real_estate_keywords.

(** The two fields no stage writes. *)
Definition same_fixed_fields (d d' : Data) : Prop :=
  chart_type d' = chart_type d /\ title d' = title d.

(** ** Sample texts *)

Definition eleven_points : string :=
  "Aaaa: 1, Bbbb: 2, Cccc: 3, Dddd: 4, Eeee: 5, Ffff: 6, Gggg: 7, Hhhh: 8, Iiii: 9, Jjjj: 10, Kkkk: 11".

Definition governorates : string :=
  "Ahmadi: 1250, Hawally: 980, Capital: 2100".

(** * Properties *)

Local Open Scope list_scope.

(** ** Lists of points *)



Lemma omap_app {A B} (f : A -> option B) (l1 l2 : list A) :
  omap f (l1 ++ l2) = omap f l1 ++ omap f l2.
Proof.
  induction l1 as [|x l1 IH]; simpl; [reflexivity|].
  destruct (f x); simpl; now rewrite IH.
Qed.

Lemma omap_In {A B} (f : A -> option B) (l : list A) (y : B) :
  In y (omap f l) -> exists x, In x l /\ f x = Some y.
Proof.
  induction l as [|x l IH]; simpl; [tauto|].
  destruct (f x) eqn:E; simpl.
  - intros [<- | H]; [now exists x; auto|].
    destruct (IH H) as [x' [? ?]]. exists x'; auto.
  - intros H. destruct (IH H) as [x' [? ?]]. exists x'; auto.
Qed.

Lemma combine_fst_snd {A B} (l : list (A * B)) :
  combine (List.map fst l) (List.map snd l) = l.
Proof.
  induction l as [|[a b] l IH]; simpl; [reflexivity|]. now rewrite IH.
Qed.

Lemma points_of_points (l : list point) : points (of_points l) = l.
Proof. apply combine_fst_snd. Qed.

Lemma add_point_of_points (l : list point) (c : string) (v : Flt.float) :
  add_point (of_points l) c v = of_points (l ++ [(c, v)]).
Proof.
  unfold add_point, of_points; simpl. now rewrite !map_app.
Qed.

(** ** The loops, on points *)

Lemma process_match_of_points (acc : list point) (m : string * string) :
  process_match (of_points acc) m =
  of_points (match candidate m with
             | Some p => keep_first acc p
             | None => acc
             end).
Proof.
  unfold process_match, keep_first.
  destruct (candidate m) as [[c v]|]; [|reflexivity].
  simpl. destruct (mem c (List.map fst acc)); simpl; [reflexivity|].
  apply add_point_of_points.
Qed.

Lemma matches_of_points (ms : list (string * string)) :
  forall acc,
    fold_left process_match ms (of_points acc) =
    of_points (fold_left keep_first (omap candidate ms) acc).
Proof.
  induction ms as [|m ms IH]; intros acc; simpl; [reflexivity|].
  rewrite process_match_of_points.
  destruct (candidate m); simpl; apply IH.
Qed.

Lemma patterns_of_points (text : string) (ps : list Re.pattern) :
  forall acc,
    fold_left (fun d p => fold_left process_match (Re.findall p text) d)
              ps (of_points acc) =
    of_points (fold_left keep_first (candidates_of ps text) acc).
Proof.
  induction ps as [|p ps IH]; intros acc; simpl; [reflexivity|].
  rewrite matches_of_points, IH. now rewrite fold_left_app.
Qed.

Lemma scan_patterns_of_points (text : string) :
  scan_patterns text empty_data = of_points (dedup (candidates text)).
Proof.
  unfold scan_patterns. change empty_data with (of_points []).
  apply patterns_of_points.
Qed.

Lemma keywords_of_points (text : string) (ks : list string) :
  forall acc,
    fold_left (process_keyword text) ks (of_points acc) =
    of_points (acc ++ omap (keyword_candidate text) ks).
Proof.
  induction ks as [|k ks IH]; intros acc; simpl.
  - now rewrite app_nil_r.
  - unfold process_keyword at 2.
    destruct (keyword_candidate text k) as [[c v]|]; [|apply IH].
    rewrite add_point_of_points, IH, <- app_assoc. reflexivity.
Qed.

Lemma collect_of_points (text : string) :
  collect text = of_points (collected text).
Proof.
  unfold collect, collected, fallback.
  rewrite scan_patterns_of_points.
  destruct (dedup (candidates text)) as [|p l] eqn:E; [|reflexivity].
  change (values (of_points [])) with (@nil Flt.float). cbv iota.
  now rewrite keywords_of_points.
Qed.

Lemma sort_desc_length (l : list point) :
  List.length (sort_desc l) = List.length l.
Proof.
  assert (Hi : forall x l, List.length (insert_desc x l) = S (List.length l)).
  { intros x l0. induction l0 as [|y l0 IH]; simpl; [reflexivity|].
    destruct (Flt.ltb (snd x) (snd y)); simpl; now rewrite ?IH. }
  induction l as [|x l IH]; simpl; [reflexivity|]. now rewrite Hi, IH.
Qed.

Lemma finalize_of_points (l : list point) :
  finalize (of_points l) =
  mkData (List.map fst (top l)) (List.map snd (top l)) (List.map display l)
         "bar" "Real Estate Data Visualization".
Proof.
  unfold finalize, top.
  destruct l as [|p l]; [reflexivity|].
  change (values (of_points (p :: l))) with (snd p :: List.map snd l).
  cbv iota.
  change (combine (categories (of_points (p :: l))) (snd p :: List.map snd l))
    with (points (of_points (p :: l))).
  rewrite points_of_points, length_map.
  change (labels (of_points (p :: l))) with (List.map display (p :: l)).
  change (chart_type (of_points (p :: l))) with "bar"%string.
  change (title (of_points (p :: l)))
    with "Real Estate Data Visualization"%string.
  destruct (10 <? List.length (sort_desc (p :: l)))%nat eqn:E.
  - now rewrite <- !firstn_map.
  - apply Nat.ltb_ge in E.
    rewrite firstn_all2 by assumption.
    reflexivity.
Qed.

(** The result of the extraction, read on points: the categories and the
    values are those of the ten first sorted points, the labels those of
    all collected points in the order of collection. *)
Lemma extract_of_points (text : string) :
  extract_data_for_visualization text =
  mkData (List.map fst (top (collected text)))
         (List.map snd (top (collected text)))
         (List.map display (collected text))
         "bar" "Real Estate Data Visualization".
Proof.
  unfold extract_data_for_visualization.
  rewrite collect_of_points. apply finalize_of_points.
Qed.

Lemma points_extract (text : string) :
  points (extract_data_for_visualization text) = top (collected text).
Proof.
  rewrite extract_of_points. apply combine_fst_snd.
Qed.

(** ** The order on positive values *)

Lemma positive_cases (v : Flt.float) :
  Flt.is_positive v = true ->
  v = S754_infinity false \/ exists m e, v = S754_finite false m e.
Proof.
  destruct v as [s|s| |s m e]; try discriminate.
  - destruct s; [discriminate | now left].
  - destruct s; [discriminate | right; now exists m, e].
Qed.

Lemma finite_leb (m1 m2 : positive) (e1 e2 : Z) :
  Flt.leb (S754_finite false m1 e1) (S754_finite false m2 e2) = true <->
  (e1 < e2)%Z \/ (e1 = e2 /\ (m1 <= m2)%positive).
Proof.
  unfold Flt.leb, SFleb, SFcompare.
  change (Pos.compare_cont Eq m1 m2) with (m1 ?= m2)%positive.
  destruct (Z.compare_spec e1 e2) as [He|He|He].
  - destruct (Pos.compare_spec m1 m2) as [Hm|Hm|Hm]; split; intros H;
      try discriminate; try reflexivity; try (right; split; lia).
    destruct H as [H|[_ H]]; lia.
  - split; [now left | reflexivity].
  - split; [discriminate | lia].
Qed.

Lemma finite_ltb (m1 m2 : positive) (e1 e2 : Z) :
  Flt.ltb (S754_finite false m1 e1) (S754_finite false m2 e2) = true <->
  (e1 < e2)%Z \/ (e1 = e2 /\ (m1 < m2)%positive).
Proof.
  unfold Flt.ltb, SFltb, SFcompare.
  change (Pos.compare_cont Eq m1 m2) with (m1 ?= m2)%positive.
  destruct (Z.compare_spec e1 e2) as [He|He|He].
  - destruct (Pos.compare_spec m1 m2) as [Hm|Hm|Hm]; split; intros H;
      try discriminate; try reflexivity; try (right; split; lia);
      destruct H as [H|[_ H]]; lia.
  - split; [now left | reflexivity].
  - split; [discriminate | lia].
Qed.


Lemma ltb_ge (a b : Flt.float) :
  Flt.is_positive a = true -> Flt.is_positive b = true ->
  Flt.ltb a b = true -> value_ge b a.
Proof.
  intros Ha Hb H. unfold value_ge.
  destruct (positive_cases a Ha) as [->|[ma [ea ->]]];
    destruct (positive_cases b Hb) as [->|[mb [eb ->]]];
    try reflexivity; try discriminate.
  apply finite_leb. apply finite_ltb in H. lia.
Qed.


(** ** The sort *)

Lemma insert_desc_perm (x : point) (l : list point) :
  Permutation (insert_desc x l) (x :: l).
Proof.
  induction l as [|y l IH]; simpl; [reflexivity|].
  destruct (Flt.ltb (snd x) (snd y)); [|reflexivity].
  rewrite IH. apply perm_swap.
Qed.

Lemma sort_desc_perm (l : list point) : Permutation (sort_desc l) l.
Proof.
  induction l as [|x l IH]; simpl; [reflexivity|].
  rewrite insert_desc_perm. now constructor.
Qed.



Lemma in_firstn {A} (n : nat) (l : list A) (x : A) :
  In x (firstn n l) -> In x l.
Proof.
  intros H. rewrite <- (firstn_skipn n l). apply in_or_app. now left.
Qed.





Lemma same_value_not_ltb (v a b : Flt.float) :
  Flt.is_positive v = true -> Flt.is_positive a = true ->
  Flt.is_positive b = true ->
  same_value v a = true -> same_value v b = true -> Flt.ltb a b = false.
Proof.
  intros Hv Ha Hb. unfold same_value.
  destruct (positive_cases v Hv) as [->|[mv [ev ->]]];
    destruct (positive_cases a Ha) as [->|[ma [ea ->]]];
    destruct (positive_cases b Hb) as [->|[mb [eb ->]]];
    try reflexivity; try discriminate.
  intros H1 H2.
  apply andb_true_iff in H1. destruct H1 as [H1 H1'].
  apply andb_true_iff in H2. destruct H2 as [H2 H2'].
  apply negb_true_iff in H1, H1', H2, H2'.
  destruct (Flt.ltb (S754_finite false ma ea) (S754_finite false mb eb))
    eqn:E; [|reflexivity].
  apply finite_ltb in E.
  assert (N1 := proj2 (finite_ltb mv ma ev ea)).
  assert (N2 := proj2 (finite_ltb ma mv ea ev)).
  assert (N3 := proj2 (finite_ltb mv mb ev eb)).
  assert (N4 := proj2 (finite_ltb mb mv eb ev)).
  assert (ea = ev /\ ma = mv).
  { destruct (Z.lt_trichotomy ea ev) as [?|[?|?]];
      [rewrite N2 in H1' by lia; discriminate | | rewrite N1 in H1 by lia;
                                                   discriminate].
    split; [assumption|].
    destruct (Pos.lt_total ma mv) as [?|[?|?]];
      [rewrite N2 in H1' by lia; discriminate | assumption
       | rewrite N1 in H1 by lia; discriminate]. }
  assert (eb = ev /\ mb = mv).
  { destruct (Z.lt_trichotomy eb ev) as [?|[?|?]];
      [rewrite N4 in H2' by lia; discriminate | | rewrite N3 in H2 by lia;
                                                   discriminate].
    split; [assumption|].
    destruct (Pos.lt_total mb mv) as [?|[?|?]];
      [rewrite N4 in H2' by lia; discriminate | assumption
       | rewrite N3 in H2 by lia; discriminate]. }
  lia.
Qed.

Lemma insert_desc_stable (v : Flt.float) (x : point) (l : list point) :
  Flt.is_positive v = true -> point_positive x -> Forall point_positive l ->
  filter (fun p => same_value v (snd p)) (insert_desc x l)
  = filter (fun p => same_value v (snd p)) (x :: l).
Proof.
  intros Hv Hx Hl. induction Hl as [|y l Hy Hl IH]; [reflexivity|].
  cbn [insert_desc]. destruct (Flt.ltb (snd x) (snd y)) eqn:E; [|reflexivity].
  cbn [filter] in *. rewrite IH.
  destruct (same_value v (snd x)) eqn:Ex; [|reflexivity].
  destruct (same_value v (snd y)) eqn:Ey; [|reflexivity].
  rewrite (same_value_not_ltb v _ _ Hv Hx Hy Ex Ey) in E. discriminate.
Qed.

(** The sort is stable: the points of one value keep the order they were
    collected in. *)
Lemma sort_desc_stable (v : Flt.float) (l : list point) :
  Flt.is_positive v = true -> Forall point_positive l ->
  filter (fun p => same_value v (snd p)) (sort_desc l)
  = filter (fun p => same_value v (snd p)) l.
Proof.
  intros Hv Hl. induction Hl as [|x l Hx Hl IH]; [reflexivity|].
  cbn [sort_desc]. rewrite insert_desc_stable; auto.
  - cbn [filter]. now rewrite IH.
  - apply (Permutation_Forall (Permutation_sym (sort_desc_perm l))).
    assumption.
Qed.

(** ** First occurrence wins *)



Lemma dedup_from_incl (l : list point) :
  forall acc q, In q (fold_left keep_first l acc) -> In q acc \/ In q l.
Proof.
  induction l as [|p l IH]; intros acc q H; simpl in *; [now left|].
  destruct (IH _ _ H) as [Hq | Hq]; [|now right; right].
  unfold keep_first in Hq.
  destruct (mem (fst p) (List.map fst acc)); [now left|].
  apply in_app_or in Hq. destruct Hq as [Hq | [<- | []]]; auto.
Qed.

Lemma dedup_from_keeps (l : list point) :
  forall acc q, In q acc -> In q (fold_left keep_first l acc).
Proof.
  induction l as [|p l IH]; intros acc q H; simpl; [assumption|].
  apply IH. unfold keep_first.
  destruct (mem (fst p) (List.map fst acc)); [assumption|].
  apply in_or_app. now left.
Qed.







Lemma dedup_incl (l : list point) (q : point) : In q (dedup l) -> In q l.
Proof.
  intros H. destruct (dedup_from_incl _ _ _ H) as [[] | H']. assumption.
Qed.


Lemma dedup_nil (l : list point) : dedup l = [] -> l = [].
Proof.
  destruct l as [|p l]; [reflexivity|]. unfold dedup; simpl. intros H.
  assert (Hin : In p (fold_left keep_first l (keep_first [] p))).
  { apply dedup_from_keeps. now left. }
  rewrite H in Hin. destruct Hin.
Qed.

(** ** The fallback produces each label once *)

Lemma keyword_candidate_label (text k : string) (p : point) :
  keyword_candidate text k = Some p -> fst p = Str.title k.
Proof.
  unfold keyword_candidate.
  destruct (Str.contains k (Str.lower text)); [|discriminate].
  destruct (List.map fst (Re.findall number_pattern text)); [discriminate|].
  destruct (Flt.float_of_string s); [|discriminate].
  destruct (Flt.is_positive f); [|discriminate].
  now intros [= <-].
Qed.

Lemma keyword_candidate_positive (text k : string) (p : point) :
  keyword_candidate text k = Some p -> point_positive p.
Proof.
  unfold keyword_candidate, point_positive.
  destruct (Str.contains k (Str.lower text)); [|discriminate].
  destruct (List.map fst (Re.findall number_pattern text)); [discriminate|].
  destruct (Flt.float_of_string s); [|discriminate].
  destruct (Flt.is_positive f) eqn:E; [|discriminate].
  now intros [= <-].
Qed.





Lemma top_incl (l : list point) (p : point) : In p (top l) -> In p l.
Proof.
  unfold top. intros H. apply in_firstn in H.
  apply (Permutation_in _ (sort_desc_perm l)). assumption.
Qed.



(** ** What the clean-up leaves in a label *)

Lemma forallb_filter (keep ok ok' : ascii -> bool) (s : string) :
  (forall c, keep c = true -> ok c = true -> ok' c = true) ->
  Str.forallb ok s = true -> Str.forallb ok' (Str.filter keep s) = true.
Proof.
  intros Hc. induction s as [|c s IH]; simpl; [reflexivity|].
  intros H. apply andb_true_iff in H. destruct H as [H1 H2].
  destruct (keep c) eqn:E; simpl; [|now apply IH].
  rewrite (Hc c E H1). now apply IH.
Qed.

Lemma forallb_lstrip (ok : ascii -> bool) (s : string) :
  Str.forallb ok s = true -> Str.forallb ok (Str.lstrip s) = true.
Proof.
  induction s as [|c s IH]; simpl; [reflexivity|].
  intros H. destruct (Char.is_space c); [|assumption].
  apply andb_true_iff in H. now apply IH.
Qed.

Lemma forallb_rstrip (ok : ascii -> bool) (s : string) :
  Str.forallb ok s = true -> Str.forallb ok (Str.rstrip s) = true.
Proof.
  induction s as [|c s IH]; simpl; [reflexivity|].
  intros H. apply andb_true_iff in H. destruct H as [H1 H2].
  destruct (Char.is_space c && Str.is_empty (Str.rstrip s)); [reflexivity|].
  simpl. rewrite H1. now apply IH.
Qed.

Lemma forallb_collapse (s : string) :
  forall b, Str.forallb plain_space (Str.collapse b s) = true.
Proof.
  induction s as [|c s IH]; intros b; simpl; [reflexivity|].
  destruct (Char.is_space c) eqn:E.
  - destruct b; [apply IH|]. simpl. apply IH.
  - simpl. unfold plain_space at 1. rewrite E. simpl. apply IH.
Qed.

Lemma keep_label_char_plain (c : ascii) :
  Str.keep_label_char c = true -> plain_space c = true ->
  label_char c = true.
Proof.
  unfold Str.keep_label_char, plain_space, label_char.
  destruct (Char.is_word c), (Char.is_space c), (Char.is_code 32 c),
    (Char.is_code 45 c), (Char.is_code 38 c); simpl; congruence.
Qed.

Lemma clean_category_chars (s : string) :
  Str.forallb label_char (clean_category s) = true.
Proof.
  unfold clean_category, Str.sub_special, Str.strip, Str.sub_spaces.
  apply (forallb_filter _ plain_space); [apply keep_label_char_plain|].
  apply forallb_rstrip, forallb_lstrip, forallb_collapse.
Qed.

(** ** What a candidate is *)

Lemma candidate_positive (m : string * string) (p : point) :
  candidate m = Some p -> point_positive p.
Proof.
  unfold candidate, point_positive.
  destruct (Flt.float_of_string (Str.remove_commas (snd m))) as [v|];
    [|discriminate].
  destruct (Flt.is_positive v) eqn:E; rewrite ?andb_false_r; [|discriminate].
  destruct (negb (Str.is_empty (Str.strip (fst m)))); [|discriminate].
  simpl. destruct (acceptable _); [|discriminate].
  now intros [= <-].
Qed.

Lemma candidate_label (m : string * string) (p : point) :
  candidate m = Some p -> point_label_ok p.
Proof.
  unfold candidate, point_label_ok.
  destruct (Flt.float_of_string (Str.remove_commas (snd m))) as [v|];
    [|discriminate].
  destruct (negb (Str.is_empty (Str.strip (fst m))) && Flt.is_positive v);
    [|discriminate].
  destruct (acceptable _); [|discriminate].
  intros [= <-]. apply clean_category_chars.
Qed.

Lemma candidates_In (text : string) (p : point) :
  In p (candidates text) -> exists m, candidate m = Some p.
Proof.
  unfold candidates, candidates_of. intros H.
  apply in_flat_map in H. destruct H as [pat [_ H]].
  apply omap_In in H. destruct H as [m [_ H]]. now exists m.
Qed.

Lemma keyword_points_In (text : string) (p : point) :
  In p (keyword_points text) ->
  exists k, In k real_estate_keywords /\ keyword_candidate text k = Some p.
Proof. apply omap_In. Qed.

Lemma keyword_titles_ok :
  List.forallb (fun k => Str.forallb label_char (Str.title k))
               real_estate_keywords = true.
Proof. vm_compute. reflexivity. Qed.

Lemma collected_In (text : string) (p : point) :
  In p (collected text) ->
  In p (candidates text) \/ In p (keyword_points text).
Proof.
  unfold collected. destruct (dedup (candidates text)) eqn:E.
  - now right.
  - rewrite <- E. intros H. left. now apply dedup_incl.
Qed.

Lemma collected_positive (text : string) :
  Forall point_positive (collected text).
Proof.
  apply Forall_forall. intros p H.
  destruct (collected_In _ _ H) as [Hc | Hk].
  - destruct (candidates_In _ _ Hc) as [m Hm].
    now apply (candidate_positive m).
  - destruct (keyword_points_In _ _ Hk) as [k [_ Hk']].
    now apply (keyword_candidate_positive text k).
Qed.

Lemma collected_label_ok (text : string) :
  Forall point_label_ok (collected text).
Proof.
  apply Forall_forall. intros p H.
  destruct (collected_In _ _ H) as [Hc | Hk].
  - destruct (candidates_In _ _ Hc) as [m Hm].
    now apply (candidate_label m).
  - destruct (keyword_points_In _ _ Hk) as [k [Hin Hk']].
    unfold point_label_ok. rewrite (keyword_candidate_label _ _ _ Hk').
    pose proof keyword_titles_ok as Hall.
    rewrite List.forallb_forall in Hall. now apply Hall.
Qed.


(** ** What a match captures

    Two facts that the model of [re.findall] and of [float] rest on: a
    match of a pattern of the table is never empty, so the scan always
    moves on; and the text handed to [float] is made of digits and dots. *)

Section Captured.
Variable sel : Re.capture -> string.
Variable g0 : nat.
Variable ok : ascii -> bool.
Hypothesis sel_same :
  forall c r, sel (Re.take g0 c r) = String c (sel r).
Hypothesis sel_other :
  forall g c r, g <> g0 -> sel (Re.take g c r) = sel r.
Hypothesis sel_none : sel Re.no_capture = EmptyString.

Lemma take_within (i : Re.item) (c : ascii) (r : Re.capture) :
  item_within g0 ok i -> Re.cls i c = true ->
  Str.forallb ok (sel r) = true ->
  Str.forallb ok (sel (Re.take (Re.grp i) c r)) = true.
Proof.
  intros Hi Hc Hr. destruct (Nat.eq_dec (Re.grp i) g0) as [E | E].
  - rewrite E, sel_same. simpl. rewrite (Hi E c Hc). assumption.
  - now rewrite sel_other.
Qed.

Lemma one_within (i : Re.item) (k : string -> option Re.capture) :
  item_within g0 ok i -> captures_within sel ok k ->
  captures_within sel ok (Re.one (Re.cls i) (Re.grp i) k).
Proof.
  intros Hi Hk s r. destruct s as [|c s]; simpl; [discriminate|].
  destruct (Re.cls i c) eqn:Ec; [|discriminate].
  destruct (k s) as [r'|] eqn:Ek; simpl; [|discriminate].
  intros [= <-]. apply take_within; auto. now apply (Hk s).
Qed.

Lemma greedy_within (i : Re.item) (k : string -> option Re.capture) :
  item_within g0 ok i -> captures_within sel ok k ->
  captures_within sel ok (Re.greedy (Re.cls i) (Re.grp i) k).
Proof.
  intros Hi Hk s. induction s as [|c s IH]; intros r; simpl.
  - apply Hk.
  - destruct (Re.cls i c) eqn:Ec; [|apply Hk].
    destruct (Re.greedy (Re.cls i) (Re.grp i) k s) as [r'|]; simpl.
    + intros [= <-]. apply take_within; auto.
    + apply Hk.
Qed.

Lemma lazy_within (i : Re.item) (k : string -> option Re.capture) :
  item_within g0 ok i -> captures_within sel ok k ->
  captures_within sel ok (Re.lazy (Re.cls i) (Re.grp i) k).
Proof.
  intros Hi Hk s. induction s as [|c s IH]; intros r; simpl.
  - destruct (k EmptyString) as [r'|] eqn:Ek; simpl; [|discriminate].
    intros [= <-]. now apply (Hk EmptyString).
  - destruct (k (String c s)) as [r'|] eqn:Ek; simpl.
    + intros [= <-]. now apply (Hk (String c s)).
    + destruct (Re.cls i c) eqn:Ec; [|discriminate].
      destruct (Re.lazy (Re.cls i) (Re.grp i) k s) as [r'|]; simpl;
        [|discriminate].
      intros [= <-]. apply take_within; auto.
Qed.

Lemma match_here_within (p : Re.pattern) :
  Forall (item_within g0 ok) p -> captures_within sel ok (Re.match_here p).
Proof.
  induction 1 as [|i p Hi Hp IH]; simpl.
  - intros s r [= <-]. now rewrite sel_none.
  - destruct (Re.q i).
    + now apply one_within.
    + intros s r. unfold Re.or_else.
      destruct (Re.one (Re.cls i) (Re.grp i) (Re.match_here p) s) eqn:E.
      * intros [= <-]. now apply (one_within i _ Hi IH s).
      * apply IH.
    + now apply greedy_within.
    + apply one_within; [assumption|]. now apply greedy_within.
    + apply one_within; [assumption|]. now apply lazy_within.
Qed.

End Captured.

Lemma findall_from_In (p : Re.pattern) (s : string) :
  forall skip m,
    In m (Re.findall_from p skip s) ->
    exists s' r, Re.match_here p s' = Some r /\ m = (Re.g1 r, Re.g2 r).
Proof.
  induction s as [|c s IH]; intros skip m; simpl.
  - destruct skip; simpl; [|tauto].
    destruct (Re.match_here p EmptyString) as [r|] eqn:E; simpl; [|tauto].
    intros [<- | []]. now exists EmptyString, r.
  - destruct skip; [|apply IH].
    destruct (Re.match_here p (String c s)) as [r|] eqn:E; [|apply IH].
    intros [<- | H]; [now exists (String c s), r | now apply (IH _ _ H)].
Qed.

(** A pattern that starts with a group taken at least once matches at
    least one character. *)
Lemma match_here_width (i : Re.item) (p : Re.pattern) (s : string)
      (r : Re.capture) :
  Re.q i = Re.Plus \/ Re.q i = Re.LazyPlus ->
  Re.match_here (i :: p) s = Some r -> 0 < Re.width r.
Proof.
  assert (W : forall g c r', 0 < Re.width (Re.take g c r')).
  { intros g c r'. destruct g as [|[|[|g]]]; simpl; lia. }
  assert (O : forall k, Re.one (Re.cls i) (Re.grp i) k s = Some r ->
                        0 < Re.width r).
  { intros k. destruct s as [|c s]; simpl; [discriminate|].
    destruct (Re.cls i c); [|discriminate].
    destruct (k s); simpl; [|discriminate]. intros [= <-]. apply W. }
  simpl. intros [E | E]; rewrite E; apply O.
Qed.

Lemma patterns_start_with_label :
  Forall (fun p => exists i p',
              p = i :: p' /\ (Re.q i = Re.Plus \/ Re.q i = Re.LazyPlus))
         (number_pattern :: patterns).
Proof.
  repeat constructor;
    (eexists; eexists; split; [reflexivity | simpl; tauto]).
Qed.

Lemma patterns_group2 : Forall (Forall (item_within 2 number_char)) patterns.
Proof.
  unfold patterns, tail_number, Re.label_greedy, Re.label_lazy, Re.spaces,
    Re.number.
  cbn [app Re.lit].
  repeat (apply Forall_cons || apply Forall_nil).
  all: intros H c Hc; cbn [Re.cls Re.grp] in H, Hc.
  all: try discriminate H.
  all: unfold number_char; rewrite Hc; rewrite ?orb_true_r; reflexivity.
Qed.

Lemma number_pattern_group1 :
  Forall (item_within 1 digit_or_dot) number_pattern.
Proof.
  unfold number_pattern.
  repeat (apply Forall_cons || apply Forall_nil).
  all: intros H c Hc; cbn [Re.cls Re.grp] in H, Hc.
  all: unfold digit_or_dot; rewrite Hc; rewrite ?orb_true_r; reflexivity.
Qed.

Lemma remove_commas_number (s : string) :
  Str.forallb number_char s = true ->
  Str.forallb digit_or_dot (Str.remove_commas s) = true.
Proof.
  apply forallb_filter. intros c Hk Hc.
  unfold number_char in Hc. unfold digit_or_dot.
  change (Re.chr "," c) with (Ascii.eqb "," c) in Hc.
  destruct (Char.is_decimal c); [reflexivity|].
  destruct (Ascii.eqb "," c) eqn:E; [|assumption].
  apply Ascii.eqb_eq in E. subst c. discriminate.
Qed.

Lemma group2_within (ok : ascii -> bool) (p : Re.pattern) :
  Forall (item_within 2 ok) p -> captures_within Re.g2 ok (Re.match_here p).
Proof.
  apply match_here_within.
  - reflexivity.
  - intros g c r Hg. destruct g as [|[|[|g]]]; try reflexivity.
    now contradiction Hg.
  - reflexivity.
Qed.

Lemma group1_within (ok : ascii -> bool) (p : Re.pattern) :
  Forall (item_within 1 ok) p -> captures_within Re.g1 ok (Re.match_here p).
Proof.
  apply match_here_within.
  - reflexivity.
  - intros g c r Hg. destruct g as [|[|[|g]]]; try reflexivity.
    now contradiction Hg.
  - reflexivity.
Qed.

(** The two calls of [float] receive digits and dots only. *)
Lemma float_arguments (text : string) :
  (forall p m, In p patterns -> In m (Re.findall p text) ->
               Str.forallb digit_or_dot (Str.remove_commas (snd m)) = true)
  /\ (forall first,
         In first (List.map fst (Re.findall number_pattern text)) ->
         Str.forallb digit_or_dot first = true).
Proof.
  split.
  - intros p m Hp Hm.
    destruct (findall_from_In _ _ _ _ Hm) as [s' [r [Hr ->]]].
    apply remove_commas_number. simpl.
    pose proof patterns_group2 as H. rewrite Forall_forall in H.
    exact (group2_within _ _ (H p Hp) s' r Hr).
  - intros first H. apply in_map_iff in H. destruct H as [m [<- Hm]].
    destruct (findall_from_In _ _ _ _ Hm) as [s' [r [Hr ->]]]. simpl.
    exact (group1_within _ _ number_pattern_group1 s' r Hr).
Qed.

(** *** The domain of [float_of_string] *)

Lemma forallb_append (f : ascii -> bool) (a b : string) :
  Str.forallb f (a ++ b)%string = Str.forallb f a && Str.forallb f b.
Proof.
  induction a as [|c a IH]; simpl; [reflexivity|].
  now rewrite IH, andb_assoc.
Qed.

Lemma count_append (f : ascii -> bool) (a b : string) :
  Str.count f (a ++ b)%string = Str.count f a + Str.count f b.
Proof.
  induction a as [|c a IH]; simpl; [reflexivity|].
  rewrite IH. destruct (f c); reflexivity.
Qed.

Lemma digits_value_none (s : string) :
  forall acc,
    Flt.digits_value acc s = None <-> Str.forallb Char.is_decimal s = false.
Proof.
  induction s as [|c s IH]; intros acc; simpl.
  - split; discriminate.
  - destruct (Char.is_decimal c); simpl; [apply IH | tauto].
Qed.

Lemma split_dot_spec (s : string) :
  s = (fst (Flt.split_dot s)
       ++ match snd (Flt.split_dot s) with
          | Some f => String "." f
          | None => EmptyString
          end)%string
  /\ Str.count (Re.chr ".") (fst (Flt.split_dot s)) = 0.
Proof.
  induction s as [|c s [IH1 IH2]]; simpl; [now split|].
  destruct (Ascii.eqb c ".") eqn:E.
  - apply Ascii.eqb_eq in E. subst c. now split.
  - assert (En : Re.chr "." c = false)
      by (unfold Re.chr; now rewrite Ascii.eqb_sym).
    destruct (Flt.split_dot s) as [a b].
    cbn [fst snd Str.count String.append] in *. split.
    + now rewrite <- IH1.
    + now rewrite En.
Qed.

Lemma decimal_not_dot (c : ascii) :
  Char.is_decimal c = true -> Re.chr "." c = false.
Proof.
  intros H. unfold Re.chr. destruct (Ascii.eqb "." c) eqn:E; [|reflexivity].
  apply Ascii.eqb_eq in E. subst c. discriminate.
Qed.

Lemma digits_iff_no_dot (s : string) :
  Str.forallb digit_or_dot s = true ->
  (Str.forallb Char.is_decimal s = true <-> Str.count (Re.chr ".") s = 0).
Proof.
  induction s as [|c s IH]; cbn [Str.forallb Str.count]; [tauto|].
  intros H. apply andb_true_iff in H. destruct H as [Hc Hs].
  unfold digit_or_dot in Hc.
  destruct (Char.is_decimal c) eqn:Ed.
  - rewrite (decimal_not_dot c Ed). now apply IH.
  - rewrite orb_false_l in Hc. rewrite Hc. rewrite andb_false_l.
    split; [discriminate | cbn; lia].
Qed.

Lemma no_digit_length (s : string) :
  Str.count Char.is_decimal s = 0 ->
  Str.count (Re.chr ".") s = 0 -> Str.forallb digit_or_dot s = true ->
  s = EmptyString.
Proof.
  destruct s as [|c s]; cbn [Str.forallb Str.count]; [reflexivity|].
  unfold digit_or_dot.
  destruct (Char.is_decimal c), (Re.chr "." c); cbn; lia || discriminate.
Qed.

(** On a text of digits and dots [float] fails exactly when the text has
    no digit or more than one dot. *)
Lemma float_of_string_defined (s : string) :
  Str.forallb digit_or_dot s = true ->
  (Flt.float_of_string s = None <->
   Str.count Char.is_decimal s = 0 \/ 2 <= Str.count (Re.chr ".") s).
Proof.
  intros Hs. unfold Flt.float_of_string.
  destruct (split_dot_spec s) as [Es Ha].
  destruct (Flt.split_dot s) as [a ob]. simpl in Es, Ha.
  set (f := match ob with Some f => f | None => EmptyString end).
  assert (Hsplit : Str.forallb digit_or_dot a = true
                   /\ Str.forallb digit_or_dot f = true).
  { rewrite Es, forallb_append in Hs. apply andb_true_iff in Hs.
    destruct Hs as [H1 H2]. split; [assumption|].
    unfold f. destruct ob; [|reflexivity].
    cbn [Str.forallb] in H2. now apply andb_true_iff in H2. }
  destruct Hsplit as [Hda Hdf].
  assert (Hdig : Str.forallb Char.is_decimal a = true)
    by now apply digits_iff_no_dot.
  assert (Hdots : Str.count (Re.chr ".") s
                  = match ob with
                    | Some _ => S (Str.count (Re.chr ".") f)
                    | None => 0
                    end).
  { rewrite Es, count_append, Ha. unfold f. destruct ob; reflexivity. }
  assert (Hdigits : Str.count Char.is_decimal s
                    = Str.count Char.is_decimal a + Str.count Char.is_decimal f).
  { rewrite Es, count_append. unfold f. destruct ob; simpl; lia. }
  destruct (Str.is_empty a && Str.is_empty f) eqn:Ee.
  - apply andb_true_iff in Ee. destruct Ee as [E1 E2].
    destruct a; [|discriminate]. destruct f; [|discriminate].
    split; [intros _; left; rewrite Hdigits; reflexivity | reflexivity].
  - destruct (Flt.digits_value 0 (a ++ f)) as [m|] eqn:Ev.
    + split; [discriminate|]. intros H. exfalso.
      assert (Hall : Str.forallb Char.is_decimal (a ++ f) = true).
      { destruct (Str.forallb Char.is_decimal (a ++ f)) eqn:E; [reflexivity|].
        apply digits_value_none with (acc := 0%Z) in E. congruence. }
      rewrite forallb_append, Hdig in Hall. simpl in Hall.
      apply digits_iff_no_dot in Hall; [|assumption].
      destruct H as [H | H].
      * rewrite Hdigits in H.
        assert (Ef : f = EmptyString) by (apply no_digit_length; auto; lia).
        assert (Ea : a = EmptyString).
        { apply no_digit_length; auto; lia. }
        rewrite Ea, Ef in Ee. discriminate.
      * rewrite Hdots in H. destruct ob; lia.
    + split; [|reflexivity]. intros _. right.
      apply digits_value_none in Ev.
      rewrite forallb_append, Hdig in Ev. simpl in Ev.
      assert (Hn : Str.count (Re.chr ".") f <> 0).
      { intros H0. apply digits_iff_no_dot in H0; [congruence | assumption]. }
      rewrite Hdots. destruct ob as [f'|]; [lia|].
      unfold f in Hn. simpl in Hn. congruence.
Qed.

(** ** The lengths of the three lists *)

Lemma top_length (l : list point) :
  List.length (top l) = Nat.min 10 (List.length l).
Proof. unfold top. now rewrite length_firstn, sort_desc_length. Qed.

(** The categories and the values always have the same length; the labels
    are as many as the collected points. *)
Lemma extract_lengths (text : string) :
  let r := extract_data_for_visualization text in
  List.length (categories r) = List.length (values r)
  /\ List.length (categories r) = Nat.min 10 (List.length (labels r)).
Proof.
  simpl. rewrite extract_of_points. simpl.
  rewrite !length_map. split; [reflexivity | apply top_length].
Qed.

(** ** The model at work *)

(** The first pattern on the governorate text: the number group takes the
    comma that follows the digits, and the next label starts after it. *)
Lemma findall_colon_pattern :
  Re.findall (nth 0 patterns []) governorates
  = [("Ahmadi", "1250,"); (" Hawally", "980,"); (" Capital", "2100")]%string.
Proof. vm_compute. reflexivity. Qed.

(** On "Total: KD 5.2 billion" two patterns match, with the labels " " and
    " KD"; neither gives a candidate, and the point comes from the
    fallback keyword "total". *)
Lemma total_billion_matches :
  List.map (fun p => Re.findall p "Total: KD 5.2 billion") patterns
  = [ []; []; []; []; []; []; []; []; [(" ", "5.2")]; [(" KD", "5.2")];
      []; []; []; []; [] ]%string
  /\ candidates "Total: KD 5.2 billion" = []
  /\ List.map display (keyword_points "Total: KD 5.2 billion")
     = ["Total: 5.20"%string].
Proof. vm_compute. repeat split. Qed.

Lemma float_of_string_samples :
  Flt.float_of_string "5.2" = Some (S754_finite false 5854679515581645 (-50))
  /\ Flt.float_of_string "2100" = Some (S754_finite false 4617948836659200 (-41))
  /\ Flt.float_of_string "5." = Flt.float_of_string "5"
  /\ Flt.float_of_string ".5" = Flt.float_of_string "0.5"
  /\ Flt.float_of_string "0" = Some Flt.zero
  /\ Flt.float_of_string "" = None
  /\ Flt.float_of_string "." = None.
Proof. vm_compute. repeat split. Qed.

Lemma format_samples :
  List.map (fun s => option_map Flt.format (Flt.float_of_string s))
           ["1250"; "1234567.125"; "0.005"; "999.995"; "5.2"]%string
  = [Some "1,250.00"; Some "1,234,567.12"; Some "0.01"; Some "1,000.00";
     Some "5.20"]%string.
Proof. vm_compute. reflexivity. Qed.

(** * The claims *)

(** C1.  The three lists do not keep the same length: on a text with
    eleven data points the closing block cuts the categories and the values
    down to ten and leaves the eleven labels in place. *)
Theorem C1_labels_outlive_truncation :
  let r := extract_data_for_visualization eleven_points in
  List.length (categories r) = 10
  /\ List.length (values r) = 10
  /\ List.length (labels r) = 11.
Proof. vm_compute. repeat split. Qed.

(** C2.  The labels do not follow the sort: on the governorate text the
    first label is the one of the first point collected, whereas the first
    category and value are those of the greatest point. *)
Theorem C2_labels_keep_collection_order :
  let r := extract_data_for_visualization governorates in
  labels r = ["Ahmadi: 1,250.00"; "Hawally: 980.00"; "Capital: 2,100.00"]%string
  /\ List.map display (points r)
     = ["Capital: 2,100.00"; "Ahmadi: 1,250.00"; "Hawally: 980.00"]%string.
Proof. vm_compute. split; reflexivity. Qed.

Lemma any_in_true (keywords : list string) (text : string) :
  any_in keywords text = true <->
  exists k, In k keywords /\ Str.contains k text = true.
Proof. apply existsb_exists. Qed.

Lemma any_in_false (keywords : list string) (text : string) :
  any_in keywords text = false <->
  forall k, In k keywords -> Str.contains k text = false.
Proof.
  unfold any_in. split.
  - intros H k Hk. destruct (Str.contains k text) eqn:E; [|reflexivity].
    rewrite <- H. symmetry. apply existsb_exists. now exists k.
  - intros H. destruct (existsb _ keywords) eqn:E; [|reflexivity].
    apply existsb_exists in E. destruct E as [k [Hk Hc]].
    rewrite (H k Hk) in Hc. discriminate.
Qed.

(** The request for a bar chart of prices is not detected, since "prices"
    contains the text-only phrase "price". *)
Lemma C3_bar_chart_of_prices_not_detected :
  ~ (detect_visualization_request "create a bar chart of prices" = true).
Proof. vm_compute. discriminate. Qed.

(** C3.  The rule of the claim holds of the code:
    [detect_visualization_request] is true exactly when the lower-cased
    text contains a phrase of the explicit chart-request list and no
    phrase of the text-only list, and it is false on "what is the average
    price".  On the other example the code does not do what the claim
    says: it answers false on "create a bar chart of prices", which
    contains the text-only phrase "price", although the chat presents
    requests of this form to its user as chart requests. *)
Theorem C3_detect_visualization_request :
  (forall text,
      detect_visualization_request text = true <->
      (exists k, In k explicit_visualization_keywords
                 /\ Str.contains k (Str.lower text) = true)
      /\ (forall k, In k text_only_keywords ->
                    Str.contains k (Str.lower text) = false))
  /\ detect_visualization_request "create a bar chart of prices" = false
  /\ detect_visualization_request "what is the average price" = false.
Proof.
  split; [|split; vm_compute; reflexivity].
  intros text. unfold detect_visualization_request.
  rewrite andb_true_iff, negb_true_iff, any_in_true, any_in_false.
  reflexivity.
Qed.

(** The detector does answer true: a chart request without a text-only
    phrase is detected, whatever its case. *)
Lemma detect_bar_chart_of_sales :
  detect_visualization_request "Create a BAR chart of sales" = true.
Proof. vm_compute. reflexivity. Qed.

(** Of the four example queries of the sidebar the detector accepts only
    the second: "prices", "trends" and "values" contain a text-only
    phrase. *)
Lemma example_queries_detected :
  List.map detect_visualization_request example_visualization_queries
  = [false; true; false; false].
Proof. vm_compute. reflexivity. Qed.

(** The text-only phrase that blocks the request for a chart of prices. *)
Lemma prices_contains_price :
  In "price"%string text_only_keywords
  /\ Str.contains "price" (Str.lower "create a bar chart of prices") = true.
Proof. split; [simpl; tauto | vm_compute; reflexivity]. Qed.

Lemma points_collect (text : string) :
  points (collect text) = collected text.
Proof. rewrite collect_of_points. apply points_of_points. Qed.




(** C6.  The governorate text yields the categories Capital, Ahmadi,
    Hawally with the values 2100, 1250, 980. *)
Theorem C6_governorates :
  let r := extract_data_for_visualization governorates in
  categories r = ["Capital"; "Ahmadi"; "Hawally"]%string
  /\ Forall2 (fun n v => Flt.exactly n 1 v = true)
             [2100; 1250; 980]%Z (values r).
Proof.
  vm_compute. split; [reflexivity|]. repeat constructor.
Qed.

(** C7.  The text "Total: KD 5.2 billion" yields one data point, labelled
    Total, without the colon, whose value is the binary64 number nearest
    to 5.2. *)
Theorem C7_total_billion :
  let r := extract_data_for_visualization "Total: KD 5.2 billion" in
  categories r = ["Total"%string]
  /\ Forall (fun c => Str.contains ":" c = false) (categories r)
  /\ exists v, values r = [v] /\ Flt.nearest 52 10 v = true.
Proof.
  vm_compute. split; [reflexivity|]. split; [repeat constructor|].
  eexists. split; reflexivity.
Qed.

Lemma candidates_of_nil (text : string) (ps : list Re.pattern) :
  Forall (fun p => Re.findall p text = []) ps -> candidates_of ps text = [].
Proof.
  induction 1 as [|p ps Hp Hps IH]; simpl; [reflexivity|].
  now rewrite Hp, IH.
Qed.

Lemma keyword_points_nil (text : string) (ks : list string) :
  Forall (fun k => Str.contains k (Str.lower text) = false) ks ->
  omap (keyword_candidate text) ks = [].
Proof.
  induction 1 as [|k ks Hk Hks IH]; simpl; [reflexivity|].
  unfold keyword_candidate at 1. now rewrite Hk.
Qed.

Lemma top_nil (l : list point) : top l = [] -> l = [].
Proof.
  intros H. destruct l as [|p l]; [reflexivity|].
  assert (Hl := top_length (p :: l)). rewrite H in Hl. discriminate.
Qed.

(** C8.  The extraction is a total function: the one error the code can
    meet, a number that does not parse, is caught and the match skipped.
    When no pattern matches the text and no fallback keyword occurs in it,
    the three lists of the result are empty; and on every text the three
    lists are either all empty or all non-empty. *)
Theorem C8_empty_result (text : string) :
  let r := extract_data_for_visualization text in
  (Forall (fun p => Re.findall p text = []) patterns ->
   Forall (fun k => Str.contains k (Str.lower text) = false)
          real_estate_keywords ->
   categories r = [] /\ values r = [] /\ labels r = [])
  /\ ((categories r = [] /\ values r = [] /\ labels r = [])
      \/ (categories r <> [] /\ values r <> [] /\ labels r <> [])).
Proof.
  cbv zeta. rewrite extract_of_points. cbn [categories values labels].
  split.
  - intros Hp Hk. unfold collected, candidates.
    rewrite (candidates_of_nil _ _ Hp). cbn [dedup fold_left].
    unfold keyword_points. rewrite (keyword_points_nil _ _ Hk).
    repeat split.
  - destruct (collected text) as [|p l] eqn:E; [left; repeat split|].
    right. destruct (top (p :: l)) as [|q t] eqn:Et.
    + apply top_nil in Et. discriminate.
    + repeat split; discriminate.
Qed.

(** C8 at a text without numbers and without keywords. *)
Lemma C8_empty_result_witness :
  Forall (fun p => Re.findall p "hello world" = []) patterns
  /\ Forall (fun k => Str.contains k (Str.lower "hello world") = false)
            real_estate_keywords
  /\ let r := extract_data_for_visualization "hello world" in
     categories r = [] /\ values r = [] /\ labels r = [].
Proof.
  assert (Hp : Forall (fun p => Re.findall p "hello world" = []) patterns)
    by (repeat constructor).
  assert (Hk : Forall (fun k => Str.contains k (Str.lower "hello world")
                                = false) real_estate_keywords)
    by (repeat constructor).
  split; [exact Hp|]. split; [exact Hk|].
  exact (proj1 (C8_empty_result "hello world") Hp Hk).
Defined.

(** C9.  The clean-up of a label keeps the underscore, which is neither a
    letter nor a digit: the text "Net_Income: 1250" gives the category
    Net_Income, whereas the clean-up is meant, by its own comment, to
    remove the special characters except the ampersand and the hyphen, as
    the claim says. *)
Theorem C9_underscore_kept :
  categories (extract_data_for_visualization "Net_Income: 1250")
  = ["Net_Income"%string]
  /\ ~ Forall (fun c => Str.forallb spec_label_char c = true)
         (categories (extract_data_for_visualization "Net_Income: 1250")).
Proof.
  assert (E : categories (extract_data_for_visualization "Net_Income: 1250")
              = ["Net_Income"%string]) by (vm_compute; reflexivity).
  split; [exact E|].
  rewrite E. intros H. inversion H as [|? ? Hc _]; subst.
  vm_compute in Hc. discriminate.
Qed.

(** X17.  What the clean-up does ensure: every category of the result is
    made of word characters (letters, digits and the underscore), spaces,
    ampersands and hyphens; no other character is kept. *)
Theorem X17_label_characters (text : string) :
  Forall (fun c => Str.forallb label_char c = true)
         (categories (extract_data_for_visualization text)).
Proof.
  rewrite extract_of_points. cbn [categories].
  apply Forall_forall. intros c Hc.
  apply in_map_iff in Hc. destruct Hc as [p [<- Hp]].
  apply top_incl in Hp.
  pose proof (collected_label_ok text) as H.
  rewrite Forall_forall in H. now apply H.
Qed.

(** ** The two fixed fields *)

Lemma process_match_frame (d : Data) (m : string * string) :
  same_fixed_fields d (process_match d m).
Proof.
  unfold process_match, same_fixed_fields.
  destruct (candidate m) as [[c v]|]; [|now split].
  destruct (negb (mem c (categories d))); now split.
Qed.

Lemma process_keyword_frame (text : string) (d : Data) (k : string) :
  same_fixed_fields d (process_keyword text d k).
Proof.
  unfold process_keyword, same_fixed_fields.
  destruct (keyword_candidate text k) as [[c v]|]; now split.
Qed.

Lemma fold_frame {A} (f : Data -> A -> Data) (l : list A) :
  (forall d x, same_fixed_fields d (f d x)) ->
  forall d, same_fixed_fields d (fold_left f l d).
Proof.
  intros Hf. induction l as [|x l IH]; intros d; simpl; [now split|].
  destruct (IH (f d x)) as [H1 H2]. destruct (Hf d x) as [H3 H4].
  split; congruence.
Qed.

Lemma scan_patterns_frame (text : string) (d : Data) :
  same_fixed_fields d (scan_patterns text d).
Proof.
  unfold scan_patterns. apply fold_frame.
  intros d' p. apply fold_frame, process_match_frame.
Qed.

Lemma fallback_frame (text : string) (d : Data) :
  same_fixed_fields d (fallback text d).
Proof.
  unfold fallback. destruct (values d); [|now split].
  apply fold_frame, process_keyword_frame.
Qed.

Lemma finalize_frame (d : Data) : same_fixed_fields d (finalize d).
Proof.
  unfold finalize. destruct (values d); [now split|].
  destruct (10 <? _)%nat; now split.
Qed.

(** C10.  The chart type of the result is bar and its title is Real
    Estate Data Visualization; the pattern scan, the fallback and the
    closing block leave both fields as they find them. *)
Theorem C10_fixed_fields :
  (forall text,
      chart_type (extract_data_for_visualization text) = "bar"%string
      /\ title (extract_data_for_visualization text)
         = "Real Estate Data Visualization"%string)
  /\ (forall text d,
         chart_type (scan_patterns text d) = chart_type d
         /\ title (scan_patterns text d) = title d)
  /\ (forall text d,
         chart_type (fallback text d) = chart_type d
         /\ title (fallback text d) = title d)
  /\ (forall d,
         chart_type (finalize d) = chart_type d
         /\ title (finalize d) = title d).
Proof.
  split; [|split; [|split]].
  - intros text. rewrite extract_of_points. now split.
  - intros text d. apply scan_patterns_frame.
  - intros text d. apply fallback_frame.
  - intros d. apply finalize_frame.
Qed.

(** * Further properties of the extraction *)

(** ** Values and labels of the returned points *)

Lemma candidate_acceptable (m : string * string) (p : point) :
  candidate m = Some p -> acceptable (fst p) = true.
Proof.
  unfold candidate.
  destruct (Flt.float_of_string (Str.remove_commas (snd m))) as [v|];
    [|discriminate].
  destruct (negb (Str.is_empty (Str.strip (fst m))) && Flt.is_positive v);
    [|discriminate].
  destruct (acceptable _) eqn:E; [|discriminate].
  now intros [= <-].
Qed.

Lemma keyword_titles_acceptable :
  List.forallb (fun k => acceptable (Str.title k)) real_estate_keywords
  = true.
Proof. vm_compute. reflexivity. Qed.

Lemma collected_acceptable (text : string) (p : point) :
  In p (collected text) -> acceptable (fst p) = true.
Proof.
  intros H. destruct (collected_In _ _ H) as [Hc | Hk].
  - destruct (candidates_In _ _ Hc) as [m Hm].
    now apply (candidate_acceptable m).
  - destruct (keyword_points_In _ _ Hk) as [k [Hin Hk']].
    rewrite (keyword_candidate_label _ _ _ Hk').
    pose proof keyword_titles_acceptable as Hall.
    rewrite List.forallb_forall in Hall. now apply Hall.
Qed.

Lemma acceptable_spec (c : string) :
  acceptable c = true <->
  3 < String.length c
  /\ forall w, In w skip_words -> Str.contains w (Str.lower c) = false.
Proof.
  unfold acceptable. rewrite andb_true_iff, negb_true_iff, Nat.ltb_lt.
  split; intros [H1 H2]; (split; [assumption|]).
  - intros w Hw. destruct (Str.contains w (Str.lower c)) eqn:E; [|reflexivity].
    rewrite <- H2. symmetry. apply existsb_exists. now exists w.
  - destruct (existsb _ skip_words) eqn:E; [|reflexivity].
    apply existsb_exists in E. destruct E as [w [Hw Hc]].
    rewrite (H2 w Hw) in Hc. discriminate.
Qed.

(** X1.  Every value of the result is greater than zero: no zero, no
    negative number and no NaN is ever returned. *)
Theorem X1_values_positive (text : string) :
  Forall (fun v => Flt.is_positive v = true)
         (values (extract_data_for_visualization text)).
Proof.
  rewrite extract_of_points. cbn [values].
  apply Forall_forall. intros v Hv.
  apply in_map_iff in Hv. destruct Hv as [p [<- Hp]].
  apply top_incl in Hp.
  pose proof (collected_positive text) as H.
  rewrite Forall_forall in H. now apply H.
Qed.

(** X2.  Every category of the result has more than three characters, and
    its lower-cased form contains none of the words source:, page, file,
    pdf, report, title. *)
Theorem X2_categories_pass_the_filter (text : string) :
  Forall (fun c =>
            3 < String.length c
            /\ forall w, In w skip_words ->
                         Str.contains w (Str.lower c) = false)
         (categories (extract_data_for_visualization text)).
Proof.
  rewrite extract_of_points. cbn [categories].
  apply Forall_forall. intros c Hc.
  apply in_map_iff in Hc. destruct Hc as [p [<- Hp]].
  apply acceptable_spec, (collected_acceptable text), top_incl, Hp.
Qed.

(** X3.  The labels are the display strings of the collected points, in
    the order of collection.  So the display string of every returned
    point is among the labels, and when at most ten labels were built the
    labels are, up to their order, the display strings of the returned
    points. *)
Theorem X3_labels_of_collected_points (text : string) :
  let r := extract_data_for_visualization text in
  labels r = List.map display (points (collect text))
  /\ (forall p, In p (points r) -> In (display p) (labels r))
  /\ (List.length (labels r) <= 10 ->
      Permutation (List.map display (points r)) (labels r)).
Proof.
  cbv zeta. rewrite points_extract, points_collect, extract_of_points.
  cbn [labels]. split; [reflexivity|]. split.
  - intros p Hp. apply in_map, top_incl, Hp.
  - rewrite length_map. intros Hl. apply Permutation_map.
    unfold top. rewrite firstn_all2 by now rewrite sort_desc_length.
    apply sort_desc_perm.
Qed.

(** X3 at the governorate text, which has three labels. *)
Lemma X3_labels_of_collected_points_witness :
  List.length (labels (extract_data_for_visualization governorates)) <= 10
  /\ Permutation
       (List.map display (points (extract_data_for_visualization governorates)))
       (labels (extract_data_for_visualization governorates)).
Proof.
  assert (H : List.length
                (labels (extract_data_for_visualization governorates)) <= 10)
    by (vm_compute; lia).
  split; [exact H|].
  exact (proj2 (proj2 (X3_labels_of_collected_points governorates)) H).
Defined.

(** ** A text without digits *)

Section FromText.
Variable sel : Re.capture -> string.
Variable g0 : nat.
Variable ok : ascii -> bool.
Hypothesis sel_same :
  forall c r, sel (Re.take g0 c r) = String c (sel r).
Hypothesis sel_other :
  forall g c r, g <> g0 -> sel (Re.take g c r) = sel r.
Hypothesis sel_none : sel Re.no_capture = EmptyString.

Lemma take_from (g : nat) (c : ascii) (r : Re.capture) :
  ok c = true -> Str.forallb ok (sel r) = true ->
  Str.forallb ok (sel (Re.take g c r)) = true.
Proof.
  intros Hc Hr. destruct (Nat.eq_dec g g0) as [E | E].
  - rewrite E, sel_same. simpl. now rewrite Hc.
  - now rewrite sel_other.
Qed.

Lemma one_from (f : ascii -> bool) (g : nat)
      (k : string -> option Re.capture) :
  captures_from sel ok k -> captures_from sel ok (Re.one f g k).
Proof.
  intros Hk s r Hs. destruct s as [|c s]; simpl; [discriminate|].
  simpl in Hs. apply andb_true_iff in Hs. destruct Hs as [Hc Hs].
  destruct (f c); [|discriminate].
  destruct (k s) as [r'|] eqn:Ek; simpl; [|discriminate].
  intros [= <-]. apply take_from; auto. now apply (Hk s).
Qed.

Lemma greedy_from (f : ascii -> bool) (g : nat)
      (k : string -> option Re.capture) :
  captures_from sel ok k -> captures_from sel ok (Re.greedy f g k).
Proof.
  intros Hk s. induction s as [|c s IH]; intros r Hs; simpl.
  - now apply Hk.
  - pose proof Hs as Hs'. simpl in Hs'. apply andb_true_iff in Hs'.
    destruct Hs' as [Hc Hs'].
    destruct (f c); [|now apply Hk].
    destruct (Re.greedy f g k s) as [r'|]; simpl.
    + intros [= <-]. apply take_from; auto.
    + now apply Hk.
Qed.

Lemma lazy_from (f : ascii -> bool) (g : nat)
      (k : string -> option Re.capture) :
  captures_from sel ok k -> captures_from sel ok (Re.lazy f g k).
Proof.
  intros Hk s. induction s as [|c s IH]; intros r Hs; simpl.
  - destruct (k EmptyString) as [r'|] eqn:Ek; simpl; [|discriminate].
    intros [= <-]. now apply (Hk EmptyString).
  - pose proof Hs as Hs'. simpl in Hs'. apply andb_true_iff in Hs'.
    destruct Hs' as [Hc Hs'].
    destruct (k (String c s)) as [r'|] eqn:Ek; simpl.
    + intros [= <-]. now apply (Hk (String c s)).
    + destruct (f c); [|discriminate].
      destruct (Re.lazy f g k s) as [r'|]; simpl; [|discriminate].
      intros [= <-]. apply take_from; auto.
Qed.

Lemma match_here_from (p : Re.pattern) :
  captures_from sel ok (Re.match_here p).
Proof.
  induction p as [|i p IH]; simpl.
  - intros s r _ [= <-]. now rewrite sel_none.
  - destruct (Re.q i).
    + now apply one_from.
    + intros s r Hs. unfold Re.or_else.
      destruct (Re.one (Re.cls i) (Re.grp i) (Re.match_here p) s) eqn:E.
      * intros [= <-]. exact (one_from (Re.cls i) (Re.grp i) _ IH s _ Hs E).
      * now apply IH.
    + now apply greedy_from.
    + apply one_from. now apply greedy_from.
    + apply one_from. now apply lazy_from.
Qed.

End FromText.

Lemma group2_from (ok : ascii -> bool) (p : Re.pattern) :
  captures_from Re.g2 ok (Re.match_here p).
Proof.
  apply (match_here_from Re.g2 2).
  - reflexivity.
  - intros g c r Hg. destruct g as [|[|[|g]]]; try reflexivity.
    now contradiction Hg.
  - reflexivity.
Qed.

(** A match starts in the text it is found in. *)
Lemma findall_from_text (ok : ascii -> bool) (p : Re.pattern) (s : string) :
  Str.forallb ok s = true ->
  forall skip m,
    In m (Re.findall_from p skip s) ->
    exists s' r, Str.forallb ok s' = true
                 /\ Re.match_here p s' = Some r /\ m = (Re.g1 r, Re.g2 r).
Proof.
  induction s as [|c s IH]; intros Hs skip m.
  - simpl. destruct skip; simpl; [|tauto].
    destruct (Re.match_here p EmptyString) as [r|] eqn:E; simpl; [|tauto].
    intros [<- | []]. now exists EmptyString, r.
  - pose proof Hs as Hs'. simpl in Hs'. apply andb_true_iff in Hs'.
    destruct Hs' as [_ Hs']. simpl.
    destruct skip; [|now apply IH].
    destruct (Re.match_here p (String c s)) as [r|] eqn:E; [|now apply IH].
    intros [<- | H]; [now exists (String c s), r | now apply (IH Hs' _ _ H)].
Qed.

Lemma forallb_count_zero (f : ascii -> bool) (s : string) :
  Str.forallb (fun c => negb (f c)) s = true -> Str.count f s = 0.
Proof.
  induction s as [|c s IH]; simpl; [reflexivity|].
  intros H. apply andb_true_iff in H. destruct H as [Hc Hs].
  apply negb_true_iff in Hc. rewrite Hc. now apply IH.
Qed.

Lemma candidate_without_digit (p : Re.pattern) (text : string)
      (m : string * string) :
  Str.forallb no_digit text = true ->
  In p patterns -> In m (Re.findall p text) -> candidate m = None.
Proof.
  intros Ht Hp Hm.
  assert (Hshape := proj1 (float_arguments text) p m Hp Hm).
  destruct (findall_from_text no_digit p text Ht 0 m Hm)
    as [s' [r [Hs' [Hr ->]]]].
  assert (Hg : Str.forallb no_digit (Re.g2 r) = true)
    by exact (group2_from no_digit p s' r Hs' Hr).
  unfold candidate. cbn [snd fst] in *.
  assert (Hn : Flt.float_of_string (Str.remove_commas (Re.g2 r)) = None).
  { apply float_of_string_defined; [assumption|]. left.
    apply forallb_count_zero.
    unfold Str.remove_commas. apply (forallb_filter _ no_digit); auto. }
  now rewrite Hn.
Qed.

Lemma omap_none {A B} (f : A -> option B) (l : list A) :
  (forall x, In x l -> f x = None) -> omap f l = [].
Proof.
  induction l as [|x l IH]; intros H; simpl; [reflexivity|].
  rewrite (H x) by now left. apply IH. intros y Hy. apply H. now right.
Qed.

Lemma flat_map_nil {A B} (f : A -> list B) (l : list A) :
  (forall x, In x l -> f x = []) -> flat_map f l = [].
Proof.
  induction l as [|x l IH]; intros H; simpl; [reflexivity|].
  rewrite (H x) by now left. apply IH. intros y Hy. apply H. now right.
Qed.

Lemma candidates_without_digit (text : string) :
  Str.forallb no_digit text = true -> candidates text = [].
Proof.
  intros Ht. apply flat_map_nil. intros p Hp. apply omap_none.
  intros m Hm. now apply (candidate_without_digit p text).
Qed.

Lemma number_pattern_needs_digit (s : string) (r : Re.capture) :
  Str.forallb no_digit s = true ->
  Re.match_here number_pattern s <> Some r.
Proof.
  intros Hs. unfold number_pattern. cbn [Re.match_here Re.q Re.cls Re.grp].
  destruct s as [|c s]; [discriminate|].
  cbn [Re.one]. simpl in Hs. apply andb_true_iff in Hs.
  destruct Hs as [Hc _]. unfold no_digit in Hc.
  apply negb_true_iff in Hc. rewrite Hc. discriminate.
Qed.

Lemma numbers_without_digit (text : string) :
  Str.forallb no_digit text = true ->
  Re.findall number_pattern text = [].
Proof.
  intros Ht. destruct (Re.findall number_pattern text) as [|m l] eqn:E;
    [reflexivity|].
  destruct (findall_from_text no_digit number_pattern text Ht 0 m)
    as [s' [r [Hs' [Hr _]]]].
  - unfold Re.findall in E. rewrite E. now left.
  - now apply number_pattern_needs_digit in Hr.
Qed.

Lemma keyword_points_without_digit (text : string) :
  Str.forallb no_digit text = true -> keyword_points text = [].
Proof.
  intros Ht. apply omap_none. intros k _. unfold keyword_candidate.
  rewrite (numbers_without_digit text Ht).
  now destruct (Str.contains k (Str.lower text)).
Qed.

(** X4.  A text without any decimal digit gives the empty result, whatever
    words it contains: the patterns can only capture commas and dots, which
    do not parse as a number, and the fallback finds no number to pair with
    a keyword. *)
Theorem X4_no_digit_no_data (text : string) :
  Str.forallb no_digit text = true ->
  let r := extract_data_for_visualization text in
  categories r = [] /\ values r = [] /\ labels r = [].
Proof.
  intros Ht. cbv zeta. rewrite extract_of_points.
  unfold collected. rewrite (candidates_without_digit text Ht).
  cbn [dedup fold_left]. rewrite (keyword_points_without_digit text Ht).
  repeat split.
Qed.

(** X4 at a text that holds fallback keywords and a pattern match on
    commas, and no digit. *)
Lemma X4_no_digit_no_data_witness :
  Str.forallb no_digit "Total market value: ,,, billion" = true
  /\ Re.findall (nth 0 patterns []) "Total market value: ,,, billion"
     = [("Total market value", ",,,")]%string
  /\ let r := extract_data_for_visualization
                "Total market value: ,,, billion" in
     categories r = [] /\ values r = [] /\ labels r = [].
Proof.
  assert (H : Str.forallb no_digit "Total market value: ,,, billion" = true)
    by (vm_compute; reflexivity).
  split; [exact H|]. split; [vm_compute; reflexivity|].
  exact (X4_no_digit_no_data "Total market value: ,,, billion" H).
Defined.

(** ** The fallback *)

Lemma ltb_irrefl (v : Flt.float) : Flt.ltb v v = false.
Proof.
  destruct v as [s|s| |s m e]; try reflexivity; try (now destruct s).
  unfold Flt.ltb, SFltb, SFcompare.
  rewrite Z.compare_refl, Pos.compare_cont_refl. now destruct s.
Qed.

Lemma sort_desc_same_value (v : Flt.float) (l : list point) :
  Forall (fun p => snd p = v) l -> sort_desc l = l.
Proof.
  induction 1 as [|x l Hx Hl IH]; [reflexivity|].
  cbn [sort_desc]. rewrite IH.
  destruct Hl as [|y l Hy Hl]; [reflexivity|].
  cbn [insert_desc]. now rewrite Hx, Hy, ltb_irrefl.
Qed.

Lemma keyword_points_found (text first : string) (v : Flt.float)
      (ks : list string) :
  first_number text = Some first ->
  Flt.float_of_string first = Some v -> Flt.is_positive v = true ->
  omap (keyword_candidate text) ks
  = List.map (fun k => (Str.title k, v))
             (filter (fun k => Str.contains k (Str.lower text)) ks).
Proof.
  intros Hn Hf Hv. induction ks as [|k ks IH]; [reflexivity|].
  cbn [omap filter]. unfold keyword_candidate at 1.
  unfold first_number in Hn.
  destruct (Str.contains k (Str.lower text)); [|exact IH].
  destruct (List.map fst (Re.findall number_pattern text)) as [|n ns];
    [discriminate|].
  injection Hn as ->. rewrite Hf, Hv. cbn [List.map]. now rewrite IH.
Qed.

Lemma firstn_repeat {A} (x : A) (n m : nat) :
  firstn n (repeat x m) = repeat x (Nat.min n m).
Proof.
  revert m. induction n as [|n IH]; intros [|m]; simpl; try reflexivity.
  now rewrite IH.
Qed.

Lemma map_const {A B} (y : B) (l : list A) :
  List.map (fun _ => y) l = repeat y (List.length l).
Proof. induction l as [|x l IH]; simpl; [reflexivity | now rewrite IH]. Qed.

(** X5.  When no pattern yields a data point and the first number of the
    text is positive, the result pairs that one number with every fallback
    keyword found in the text: the categories are the keywords found, in
    title case and in the order of the keyword list, at most ten of them,
    and all the values are that first number. *)
Theorem X5_fallback_repeats_first_number (text first : string)
        (v : Flt.float) :
  candidates text = [] ->
  first_number text = Some first ->
  Flt.float_of_string first = Some v -> Flt.is_positive v = true ->
  let r := extract_data_for_visualization text in
  categories r = firstn 10 (List.map Str.title (found_keywords text))
  /\ values r
     = repeat v (Nat.min 10 (List.length (found_keywords text))).
Proof.
  intros Hc Hn Hf Hv. cbv zeta. rewrite extract_of_points.
  cbn [categories values].
  assert (E : collected text
              = List.map (fun k => (Str.title k, v)) (found_keywords text)).
  { unfold collected. rewrite Hc. cbn [dedup fold_left].
    unfold keyword_points. now apply (keyword_points_found text first). }
  rewrite E. unfold top.
  rewrite (sort_desc_same_value v)
    by (apply Forall_forall; intros p Hp; apply in_map_iff in Hp;
        destruct Hp as [k [<- _]]; reflexivity).
  rewrite <- !firstn_map, !map_map. cbn [fst snd]. split; [reflexivity|].
  now rewrite map_const, firstn_repeat.
Qed.

(** X5 at a text with two keywords and one number. *)
Lemma X5_fallback_repeats_first_number_witness :
  let text := "the total market grew by 7 points"%string in
  candidates text = []
  /\ first_number text = Some "7"%string
  /\ categories (extract_data_for_visualization text)
     = ["Total"; "Market"]%string
  /\ values (extract_data_for_visualization text)
     = [Flt.of_decimal 7 0; Flt.of_decimal 7 0].
Proof.
  cbv zeta.
  assert (Hc : candidates "the total market grew by 7 points" = [])
    by (vm_compute; reflexivity).
  assert (Hn : first_number "the total market grew by 7 points"
               = Some "7"%string) by (vm_compute; reflexivity).
  assert (Hf : Flt.float_of_string "7" = Some (Flt.of_decimal 7 0))
    by (vm_compute; reflexivity).
  assert (Hv : Flt.is_positive (Flt.of_decimal 7 0) = true)
    by (vm_compute; reflexivity).
  split; [exact Hc|]. split; [exact Hn|].
  exact (X5_fallback_repeats_first_number _ _ _ Hc Hn Hf Hv).
Defined.

(** * The classifiers *)

Lemma char_lower_idempotent (c : ascii) :
  Char.lower (Char.lower c) = Char.lower c.
Proof. destruct c as [[] [] [] [] [] [] [] []]; reflexivity. Qed.

Lemma lower_idempotent (s : string) : Str.lower (Str.lower s) = Str.lower s.
Proof.
  unfold Str.lower. induction s as [|c s IH]; cbn [Str.map]; [reflexivity|].
  now rewrite char_lower_idempotent, IH.
Qed.

(** X6.  The three classifiers ignore the case of letters: each gives the
    same answer on a text and on its lower-cased form, hence the same
    answer on two texts that are equal once lower-cased. *)
Theorem X6_classifiers_ignore_case :
  (forall s,
      detect_visualization_request (Str.lower s)
      = detect_visualization_request s
      /\ detect_chart_type (Str.lower s) = detect_chart_type s
      /\ detect_definition_request (Str.lower s)
         = detect_definition_request s)
  /\ (forall s t,
         Str.lower s = Str.lower t ->
         detect_visualization_request s = detect_visualization_request t
         /\ detect_chart_type s = detect_chart_type t
         /\ detect_definition_request s = detect_definition_request t).
Proof.
  split.
  - intros s.
    unfold detect_visualization_request, detect_chart_type,
      detect_definition_request.
    rewrite lower_idempotent. repeat split.
  - intros s t E.
    unfold detect_visualization_request, detect_chart_type,
      detect_definition_request.
    rewrite E. repeat split.
Qed.

(** X6 at a request written in capitals. *)
Lemma X6_classifiers_ignore_case_witness :
  Str.lower "SHOW ME A PIE CHART" = Str.lower "show me a pie chart"
  /\ detect_visualization_request "SHOW ME A PIE CHART" = true
  /\ detect_chart_type "SHOW ME A PIE CHART" = "pie"%string.
Proof.
  assert (E : Str.lower "SHOW ME A PIE CHART" = Str.lower "show me a pie chart")
    by (vm_compute; reflexivity).
  split; [exact E|].
  destruct (proj2 X6_classifiers_ignore_case _ _ E) as [H1 [H2 _]].
  rewrite H1, H2. split; vm_compute; reflexivity.
Defined.

Lemma any_in_app (l1 l2 : list string) (text : string) :
  any_in (l1 ++ l2) text = any_in l1 text || any_in l2 text.
Proof. apply existsb_app. Qed.

(** X7.  A prompt that asks for a definition with "what is", "what are",
    "explain", "describe" or "tell me about" is never taken for a
    visualization request; a prompt can be both a visualization request and
    a definition request only through one of the other definition
    keywords. *)
Theorem X7_definition_questions_get_text (text : string) :
  (forall k,
      In k ["what is"; "what are"; "explain"; "describe"; "tell me about"]%string ->
      Str.contains k (Str.lower text) = true ->
      detect_definition_request text = true
      /\ detect_visualization_request text = false)
  /\ (detect_visualization_request text = true ->
      detect_definition_request text = true ->
      exists k, In k definition_only_keywords
                /\ Str.contains k (Str.lower text) = true).
Proof.
  split.
  - intros k Hk Hc. split.
    + unfold detect_definition_request. apply any_in_true. exists k.
      split; [|assumption]. simpl in Hk |- *. tauto.
    + unfold detect_visualization_request.
      assert (Ht : any_in text_only_keywords (Str.lower text) = true).
      { apply any_in_true. exists k. split; [|assumption].
        simpl in Hk |- *. tauto. }
      rewrite Ht. apply andb_false_r.
  - unfold detect_visualization_request, detect_definition_request.
    intros Hv Hd. apply andb_true_iff in Hv. destruct Hv as [_ Hv].
    apply negb_true_iff in Hv.
    apply any_in_true in Hd. destruct Hd as [k [Hk Hc]].
    exists k. split; [|assumption].
    assert (Hn : ~ In k text_only_keywords).
    { intros Hin. rewrite (proj1 (any_in_false _ _) Hv k Hin) in Hc.
      discriminate. }
    simpl in Hk, Hn |- *. tauto.
Qed.

(** X7 at a prompt that is both a visualization and a definition
    request. *)
Lemma X7_definition_questions_get_text_witness :
  detect_visualization_request "visualize the definition of yield" = true
  /\ detect_definition_request "visualize the definition of yield" = true
  /\ exists k, In k definition_only_keywords
               /\ Str.contains k (Str.lower "visualize the definition of yield")
                  = true.
Proof.
  assert (Hv : detect_visualization_request
                 "visualize the definition of yield" = true)
    by (vm_compute; reflexivity).
  assert (Hd : detect_definition_request
                 "visualize the definition of yield" = true)
    by (vm_compute; reflexivity).
  split; [exact Hv|]. split; [exact Hd|].
  exact (proj2 (X7_definition_questions_get_text _) Hv Hd).
Defined.

Lemma any_in_cons2 (a b : string) (text : string) :
  any_in [a; b] text = Str.contains a text || Str.contains b text.
Proof. unfold any_in. simpl. now rewrite orb_false_r. Qed.

Lemma chart_type_range (text : string) :
  In (detect_chart_type text) ["bar"; "pie"; "line"; "scatter"]%string.
Proof.
  unfold detect_chart_type.
  repeat match goal with
         | |- context [if ?b then _ else _] => destruct b; [simpl; tauto|]
         end.
  simpl; tauto.
Qed.

(** X8.  The chart kind is decided by the first rule of the rule table, in
    its order, one of whose phrases occurs in the lower-cased text, and is
    bar when no rule applies; so it is always one of bar, pie, line and
    scatter, and a two-word phrase of any kind wins over the single words
    of every kind. *)
Theorem X8_chart_type_first_rule (text : string) :
  detect_chart_type text
  = match first_rule chart_rules (Str.lower text) with
    | Some kind => kind
    | None => "bar"%string
    end
  /\ In (detect_chart_type text) ["bar"; "pie"; "line"; "scatter"]%string.
Proof.
  split; [|apply chart_type_range].
  unfold detect_chart_type, chart_rules. cbn [first_rule].
  rewrite !any_in_cons2.
  repeat match goal with
         | |- context [if ?b then _ else _] => destruct b; [reflexivity|]
         end.
  reflexivity.
Qed.

Lemma str_of_nat_samples :
  List.map str_of_nat [0; 1; 7; 10] = ["0"; "1"; "7"; "10"]%string.
Proof. vm_compute. reflexivity. Qed.

(** X9.  In the chart branch the reply is either the no-data message, and
    then the extraction found nothing, or it announces a chart of one of the
    four kinds with the number of returned categories, which is between 1
    and 10. *)
Theorem X9_visualization_response (prompt context : string) :
  let r := extract_data_for_visualization context in
  (visualization_response prompt context = no_data_response
   /\ categories r = [] /\ values r = [])
  \/ (exists kind n,
         visualization_response prompt context
         = ("Generated " ++ kind ++ " chart with " ++ str_of_nat n
              ++ " data points")%string
         /\ In kind ["bar"; "pie"; "line"; "scatter"]%string
         /\ n = List.length (categories r)
         /\ n = List.length (values r)
         /\ 1 <= n <= 10).
Proof.
  cbv zeta. unfold visualization_response.
  pose proof (extract_lengths context) as [Hl Hm]. cbv zeta in Hl.
  destruct (values (extract_data_for_visualization context)) as [|v vs] eqn:E.
  - left. split; [reflexivity|]. split; [|reflexivity].
    apply length_zero_iff_nil. now rewrite Hl.
  - right. exists (detect_chart_type prompt),
      (List.length (categories (extract_data_for_visualization context))).
    split; [reflexivity|].
    split; [apply chart_type_range|].
    split; [reflexivity|]. split; [assumption|].
    split; [rewrite Hl; simpl; lia | rewrite Hm; apply Nat.le_min_l].
Qed.

(** * Texts over Unicode *)

Lemma prefixb_app (p s : U.text) : U.prefixb p (p ++ s) = true.
Proof.
  induction p as [|x p IH]; simpl; [reflexivity|].
  now rewrite N.eqb_refl, IH.
Qed.

Lemma prefixb_spec (p s : U.text) :
  U.prefixb p s = true -> exists rest, s = p ++ rest.
Proof.
  revert s. induction p as [|x p IH]; intros s; simpl.
  - intros _. now exists s.
  - destruct s as [|y s]; [discriminate|].
    intros H. apply andb_true_iff in H. destruct H as [Hx Hp].
    apply N.eqb_eq in Hx. subst y.
    destruct (IH s Hp) as [rest ->]. now exists rest.
Qed.

Lemma contains_prefix (needle hay : U.text) :
  U.prefixb needle hay = true -> U.contains needle hay = true.
Proof. intros H. destruct hay; simpl; now rewrite H. Qed.

Lemma contains_spec (needle hay : U.text) :
  U.contains needle hay = true <->
  exists a b, hay = a ++ needle ++ b.
Proof.
  split.
  - induction hay as [|c hay IH]; simpl.
    + rewrite orb_false_r. intros H.
      destruct (prefixb_spec _ _ H) as [rest E]. now exists [], rest.
    + intros H. apply orb_true_iff in H. destruct H as [H | H].
      * destruct (prefixb_spec _ _ H) as [rest E]. now exists [], rest.
      * destruct (IH H) as [a [b ->]]. now exists (c :: a), b.
  - intros [a [b ->]]. induction a as [|c a IH].
    + change ([] ++ needle ++ b) with (needle ++ b).
      apply contains_prefix, prefixb_app.
    + cbn [app U.contains]. rewrite IH. apply orb_true_r.
Qed.

Lemma contains_one (c : N) (s : U.text) :
  U.contains [c] s = true <-> In c s.
Proof.
  rewrite contains_spec. split.
  - intros [a [b ->]]. apply in_or_app. right. now left.
  - intros H. destruct (in_split _ _ H) as [a [b ->]]. now exists a, b.
Qed.

(** *** Replacing *)

Lemma replace_skip (old new t rest : U.text) :
  U.replace_from old new (List.length t) (t ++ rest)
  = U.replace_from old new 0 rest.
Proof.
  induction t as [|c t IH]; simpl; [|exact IH].
  destruct rest; reflexivity.
Qed.

Lemma replace_same_aux (x : N) (t : U.text) (n : nat) :
  forall s, List.length s <= n ->
            U.replace_from (x :: t) (x :: t) 0 s = s.
Proof.
  induction n as [|n IH]; intros s Hs.
  - destruct s; [reflexivity | simpl in Hs; lia].
  - destruct s as [|c s]; [reflexivity|].
    cbn [U.replace_from].
    destruct (U.prefixb (x :: t) (c :: s)) eqn:E.
    + destruct (prefixb_spec _ _ E) as [rest Er].
      injection Er as -> ->. cbn [List.length Nat.pred].
      rewrite replace_skip, IH; [reflexivity|].
      simpl in Hs. rewrite length_app in Hs. lia.
    + rewrite IH; [reflexivity | simpl in Hs; lia].
Qed.

(** Replacing a text by itself changes nothing. *)
Lemma replace_same (x : N) (t s : U.text) :
  U.replace (x :: t) (x :: t) s = s.
Proof. apply (replace_same_aux x t (List.length s)). lia. Qed.

(** Replacing one character is done character by character. *)
Lemma replace_one (c : N) (new s : U.text) :
  U.replace [c] new s
  = flat_map (fun x => if (c =? x)%N then new else [x]) s.
Proof.
  unfold U.replace. induction s as [|x s IH]; [reflexivity|].
  cbn [U.replace_from U.prefixb List.length Nat.pred flat_map].
  rewrite andb_true_r, IH. now destruct (c =? x)%N.
Qed.

Lemma replace_one_absent (c : N) (new s : U.text) :
  ~ In c s -> U.replace [c] new s = s.
Proof.
  rewrite replace_one. induction s as [|x s IH]; [reflexivity|].
  intros H. cbn [flat_map].
  destruct (c =? x)%N eqn:E.
  - apply N.eqb_eq in E. subst x. exfalso. apply H. now left.
  - simpl. f_equal. apply IH. intros Hin. apply H. now right.
Qed.

Lemma replace_one_gone (c : N) (new s : U.text) :
  ~ In c new -> ~ In c (U.replace [c] new s).
Proof.
  intros Hn. rewrite replace_one. intros H.
  apply in_flat_map in H. destruct H as [x [_ Hx]].
  destruct (c =? x)%N eqn:E; [now apply Hn|].
  destruct Hx as [<- | []]. now rewrite N.eqb_refl in E.
Qed.

Lemma replace_one_app (c : N) (new a b : U.text) :
  U.replace [c] new (a ++ b) = U.replace [c] new a ++ U.replace [c] new b.
Proof. rewrite !replace_one. apply flat_map_app. Qed.

(** *** Splitting and stripping keep to the characters of the text *)

Lemma split_from_chars (sep s : U.text) :
  forall skip part c,
    In part (U.split_from sep skip s) -> In c part -> In c s.
Proof.
  induction s as [|x s IH]; intros skip part c; simpl.
  - intros [<- | []] [].
  - destruct skip as [|n].
    + destruct (U.prefixb sep (x :: s)).
      * intros [<- | H] Hc; [destruct Hc|]. right. now apply (IH _ _ _ H).
      * destruct (U.split_from sep 0 s) as [|p ps] eqn:E.
        -- intros [<- | []] [<- | []]. now left.
        -- intros [<- | H] Hc.
           ++ destruct Hc as [<- | Hc]; [now left|]. right.
              apply (IH 0 p c); [|assumption]. rewrite E. now left.
           ++ right. apply (IH 0 part c); [|assumption]. rewrite E.
              now right.
    + intros H Hc. right. now apply (IH _ _ _ H).
Qed.

Lemma lstrip_chars (s : U.text) (c : N) : In c (U.lstrip s) -> In c s.
Proof.
  induction s as [|x s IH]; simpl; [tauto|].
  destruct (U.is_space x); [intros H; right; now apply IH | tauto].
Qed.

Lemma rstrip_chars (s : U.text) (c : N) : In c (U.rstrip s) -> In c s.
Proof.
  induction s as [|x s IH]; simpl; [tauto|].
  destruct (U.rstrip s) as [|y r].
  - destruct (U.is_space x); simpl; tauto.
  - intros [<- | H]; [now left | right; now apply IH].
Qed.

Lemma strip_chars (s : U.text) (c : N) : In c (U.strip s) -> In c s.
Proof. intros H. now apply lstrip_chars, rstrip_chars. Qed.

(** * format_definition_response *)

Lemma fold_add_sentence (sentences : list U.text) :
  forall formatted,
    fold_left add_sentence sentences formatted
    = formatted ++ flat_map bullet_line sentences.
Proof.
  induction sentences as [|s l IH]; intros formatted;
    cbn [fold_left flat_map].
  - now rewrite app_nil_r.
  - rewrite IH. unfold add_sentence, bullet_line.
    destruct (negb (U.is_empty (U.strip s))); [|reflexivity].
    now rewrite <- !app_assoc.
Qed.

Lemma bullet_lines_shape (sentences : list U.text) :
  flat_map bullet_line sentences = []
  \/ exists t, flat_map bullet_line sentences = bullet ++ t.
Proof.
  induction sentences as [|s l IH]; [now left|].
  cbn [flat_map]. unfold bullet_line at 1 3.
  destruct (negb (U.is_empty (U.strip s))); [|exact IH].
  right. eexists. rewrite <- app_assoc. reflexivity.
Qed.

Lemma bullet_lines_chars (c : N) (sentences : list U.text) (s : U.text) :
  (forall part, In part sentences -> forall x, In x part -> In x s) ->
  In c (flat_map bullet_line sentences) ->
  In c bullet \/ c = 32%N \/ c = U.newline \/ In c s.
Proof.
  intros Hs H. apply in_flat_map in H. destruct H as [part [Hp Hc]].
  unfold bullet_line in Hc.
  destruct (negb (U.is_empty (U.strip part))); [|destruct Hc].
  apply in_app_or in Hc. destruct Hc as [Hc | Hc]; [now left|].
  apply in_app_or in Hc. destruct Hc as [[<- | []] | Hc]; [now right; left|].
  apply in_app_or in Hc. destruct Hc as [Hc | [<- | []]].
  - right; right; right. apply (Hs part Hp). now apply strip_chars.
  - now right; right; left.
Qed.

Lemma asterisk_is : asterisk = [42%N].
Proof. reflexivity. Qed.

Lemma no_asterisk_in_bullet : ~ In 42%N bullet.
Proof. simpl. intros H. repeat destruct H as [H | H]; discriminate || auto. Qed.

Lemma no_asterisk_in_header : ~ In 42%N definition_header.
Proof.
  vm_compute. intros H. repeat destruct H as [H | H]; discriminate || auto.
Qed.

Lemma header_starts : exists h, definition_header = U.lit "##" ++ h.
Proof. eexists. vm_compute. reflexivity. Qed.

Lemma replace_bullet (x : U.text) : U.replace bullet bullet x = x.
Proof. unfold bullet. apply replace_same. Qed.

(** A text with a bullet, without asterisk, that starts with two hashes
    is left as it is. *)
Lemma format_fixed (y : U.text) :
  U.contains bullet y = true -> ~ In 42%N y ->
  U.prefixb (U.lit "##") y = true ->
  format_definition_response y = y.
Proof.
  intros Hb Hs Hp. unfold format_definition_response.
  rewrite Hb, Hp. cbn [orb negb].
  rewrite replace_bullet, asterisk_is.
  now apply replace_one_absent.
Qed.

Lemma contains_app_l (n a s : U.text) :
  U.contains n s = true -> U.contains n (a ++ s) = true.
Proof.
  intros H. apply contains_spec in H. destruct H as [u [v ->]].
  apply contains_spec. exists (a ++ u), v. now rewrite <- app_assoc.
Qed.

Lemma replaced_has_bullet (x : U.text) :
  U.contains bullet x || U.contains asterisk x = true ->
  U.contains bullet (U.replace asterisk bullet x) = true.
Proof.
  intros H. rewrite asterisk_is in *. apply orb_true_iff in H.
  apply contains_spec. destruct H as [H | H].
  - apply contains_spec in H. destruct H as [a [b ->]].
    rewrite !replace_one_app.
    rewrite (replace_one_absent 42 bullet bullet no_asterisk_in_bullet).
    eauto.
  - apply contains_one in H. destruct (in_split _ _ H) as [a [b ->]].
    change (a ++ 42%N :: b) with (a ++ [42%N] ++ b).
    rewrite !replace_one_app.
    exists (U.replace [42%N] bullet a), (U.replace [42%N] bullet b).
    reflexivity.
Qed.

Lemma replaced_keeps_hashes (x : U.text) :
  U.prefixb (U.lit "##") x = true ->
  U.prefixb (U.lit "##") (U.replace asterisk bullet x) = true.
Proof.
  intros H. destruct (prefixb_spec _ _ H) as [rest ->].
  rewrite asterisk_is, replace_one_app.
  rewrite (replace_one_absent 42 bullet (U.lit "##")).
  - apply prefixb_app.
  - vm_compute. intros F. repeat destruct F as [F | F]; discriminate || auto.
Qed.

(** The formatted text of the first branch. *)
Lemma format_marked (x : U.text) :
  U.contains bullet x || U.contains asterisk x = true ->
  let y := format_definition_response x in
  U.contains bullet y = true /\ ~ In 42%N y
  /\ U.prefixb (U.lit "##") y = true.
Proof.
  intros H. cbv zeta. unfold format_definition_response. rewrite H.
  rewrite replace_bullet.
  assert (Hb := replaced_has_bullet x H).
  assert (Hs : ~ In 42%N (U.replace asterisk bullet x)).
  { rewrite asterisk_is. apply replace_one_gone, no_asterisk_in_bullet. }
  destruct (U.prefixb (U.lit "##") x) eqn:Ep; cbn [negb].
  - split; [assumption|]. split; [assumption|].
    now apply replaced_keeps_hashes.
  - split; [now apply contains_app_l|]. split.
    + intros Hin. apply in_app_or in Hin.
      destruct Hin as [Hin | Hin]; [now apply no_asterisk_in_header | auto].
    + destruct header_starts as [h ->]. rewrite <- app_assoc.
      apply prefixb_app.
Qed.

Lemma format_header : format_definition_response definition_header
                      = definition_header.
Proof. vm_compute. reflexivity. Qed.

(** The formatted text of the second branch. *)
Lemma format_sentences (x : U.text) :
  U.contains bullet x || U.contains asterisk x = false ->
  let y := fold_left add_sentence (U.split (U.lit ". ") x)
                     definition_header in
  ~ In 42%N y /\ U.prefixb (U.lit "##") y = true
  /\ (y = definition_header \/ U.contains bullet y = true).
Proof.
  intros H. cbv zeta. rewrite fold_add_sentence.
  apply orb_false_iff in H. destruct H as [_ Hs].
  assert (Hx : ~ In 42%N x).
  { intros Hin. apply contains_one in Hin. rewrite asterisk_is in Hs.
    congruence. }
  split; [|split].
  - intros Hin. apply in_app_or in Hin.
    destruct Hin as [Hin | Hin]; [now apply no_asterisk_in_header|].
    apply (bullet_lines_chars _ _ x) in Hin.
    + destruct Hin as [Hin | [Hin | [Hin | Hin]]];
        [now apply no_asterisk_in_bullet | discriminate | discriminate
         | auto].
    + intros part Hp c Hc.
      exact (split_from_chars (U.lit ". ") x 0 part c Hp Hc).
  - destruct header_starts as [h ->]. rewrite <- app_assoc.
    apply prefixb_app.
  - destruct (bullet_lines_shape (U.split (U.lit ". ") x)) as [E | [t E]];
      rewrite E.
    + left. apply app_nil_r.
    + right. apply contains_spec. now exists definition_header, t.
Qed.

(** X10.  Formatting a definition answer twice gives the same text as
    formatting it once. *)
Theorem X10_format_definition_idempotent (x : U.text) :
  format_definition_response (format_definition_response x)
  = format_definition_response x.
Proof.
  destruct (U.contains bullet x || U.contains asterisk x) eqn:E.
  - destruct (format_marked x E) as [Hb [Hs Hp]]. now apply format_fixed.
  - destruct (1 <? List.length (U.split (U.lit ". ") x))%nat eqn:El.
    + assert (Ex : format_definition_response x
                   = fold_left add_sentence (U.split (U.lit ". ") x)
                               definition_header)
        by (unfold format_definition_response; now rewrite E, El).
      rewrite Ex.
      destruct (format_sentences x E) as [Hs [Hp [Hy | Hy]]].
      * rewrite Hy. apply format_header.
      * now apply format_fixed.
    + assert (Ex : format_definition_response x = x)
        by (unfold format_definition_response; now rewrite E, El).
      now rewrite !Ex.
Qed.

Lemma no_asterisk (y : U.text) :
  ~ In 42%N y -> U.contains asterisk y = false.
Proof.
  intros H. destruct (U.contains asterisk y) eqn:E; [|reflexivity].
  rewrite asterisk_is in E. apply contains_one in E. contradiction.
Qed.

(** X11.  The formatted answer never contains an asterisk, and it is
    either the answer as it came or a text that starts with two hashes. *)
Theorem X11_format_definition_output (x : U.text) :
  U.contains asterisk (format_definition_response x) = false
  /\ (format_definition_response x = x
      \/ U.prefixb (U.lit "##") (format_definition_response x) = true).
Proof.
  destruct (U.contains bullet x || U.contains asterisk x) eqn:E.
  - destruct (format_marked x E) as [Hb [Hs Hp]].
    split; [now apply no_asterisk | now right].
  - unfold format_definition_response. rewrite E.
    destruct (1 <? List.length (U.split (U.lit ". ") x))%nat eqn:El.
    + destruct (format_sentences x E) as [Hs [Hp _]].
      split; [now apply no_asterisk | now right].
    + split; [|now left]. now apply orb_false_iff in E.
Qed.

Lemma format_definition_samples :
  format_definition_response (U.lit "A yield is income. It is paid yearly")
  = definition_header
      ++ bullet ++ U.lit " A yield is income" ++ [U.newline]
      ++ bullet ++ U.lit " It is paid yearly" ++ [U.newline]
  /\ format_definition_response (U.lit "* one * two")
     = definition_header ++ bullet ++ U.lit " one " ++ bullet ++ U.lit " two"
  /\ format_definition_response (U.lit "## T * one")
     = U.lit "## T " ++ bullet ++ U.lit " one"
  /\ format_definition_response (U.lit "plain") = U.lit "plain".
Proof. vm_compute. repeat split. Qed.

(** * Splitting *)

Lemma split_from_nonempty (sep s : U.text) :
  forall skip, exists part parts, U.split_from sep skip s = part :: parts.
Proof.
  induction s as [|c s IH]; intros skip; simpl; [now eexists; eexists|].
  destruct skip as [|n]; [|apply IH].
  destruct (U.prefixb sep (c :: s)); [now eexists; eexists|].
  destruct (U.split_from sep 0 s); now eexists; eexists.
Qed.

Lemma split_skip (sep t rest : U.text) :
  U.split_from sep (List.length t) (t ++ rest) = U.split_from sep 0 rest.
Proof.
  induction t as [|c t IH]; simpl; [|exact IH]. destruct rest; reflexivity.
Qed.

(** A text without the separator is one part. *)
Lemma split_absent (sep s : U.text) :
  U.contains sep s = false -> U.split sep s = [s].
Proof.
  unfold U.split. induction s as [|c s IH]; [reflexivity|].
  cbn [U.contains U.split_from]. intros H.
  apply orb_false_iff in H. destruct H as [Hp Hc].
  rewrite Hp, (IH Hc). reflexivity.
Qed.

(** The text before the first occurrence of the separator is the first
    part. *)
Lemma split_first (x : N) (t chunk rest : U.text) :
  (forall a b, chunk = a ++ b -> b <> [] ->
               U.prefixb (x :: t) (b ++ (x :: t) ++ rest) = false) ->
  U.split (x :: t) (chunk ++ (x :: t) ++ rest)
  = chunk :: U.split (x :: t) rest.
Proof.
  unfold U.split. induction chunk as [|c chunk IH]; intros H.
  - change ([] ++ (x :: t) ++ rest) with (x :: (t ++ rest)).
    cbn [U.split_from].
    change (x :: t ++ rest) with ((x :: t) ++ rest).
    rewrite prefixb_app. cbn [List.length Nat.pred].
    now rewrite split_skip.
  - change ((c :: chunk) ++ (x :: t) ++ rest)
      with (c :: (chunk ++ (x :: t) ++ rest)).
    cbn [U.split_from].
    change (c :: chunk ++ (x :: t) ++ rest)
      with ((c :: chunk) ++ (x :: t) ++ rest).
    rewrite (H [] (c :: chunk) eq_refl) by discriminate.
    rewrite IH; [reflexivity|].
    intros a b E Hb. apply (H (c :: a) b); [now rewrite E | assumption].
Qed.

Lemma split_fresh (x : N) (t chunk rest : U.text) :
  ~ In x chunk ->
  U.split (x :: t) (chunk ++ (x :: t) ++ rest)
  = chunk :: U.split (x :: t) rest.
Proof.
  intros Hx. apply split_first. intros a b E Hb.
  destruct b as [|y b]; [contradiction|].
  cbn [app U.prefixb].
  destruct (x =? y)%N eqn:Exy; [|reflexivity].
  apply N.eqb_eq in Exy. subst y. exfalso. apply Hx. rewrite E.
  apply in_or_app. right. now left.
Qed.

Lemma contains_app_r (n s b : U.text) :
  U.contains n s = true -> U.contains n (s ++ b) = true.
Proof.
  intros H. apply contains_spec in H. destruct H as [u [v ->]].
  apply contains_spec. exists u, (v ++ b). now rewrite <- !app_assoc.
Qed.

Lemma contains_suffix (n a b : U.text) :
  U.contains n (a ++ b) = false -> U.contains n b = false.
Proof.
  intros H. destruct (U.contains n b) eqn:E; [|reflexivity].
  rewrite (contains_app_l n a b E) in H. discriminate.
Qed.

(** A chunk without blank line, and that does not end in a line break,
    is cut off at the blank line that follows it. *)
Lemma split_blank (chunk rest : U.text) :
  U.contains blank_line (chunk ++ [U.newline]) = false ->
  U.split blank_line (chunk ++ blank_line ++ rest)
  = chunk :: U.split blank_line rest.
Proof.
  intros H. unfold blank_line. apply split_first. intros a b E Hb.
  assert (Hs : U.contains [U.newline; U.newline] (b ++ [U.newline]) = false).
  { apply (contains_suffix _ a). now rewrite app_assoc, <- E. }
  destruct b as [|y b]; [contradiction|].
  destruct b as [|z b].
  - cbn [app U.contains U.prefixb] in Hs |- *.
    apply orb_false_iff in Hs. destruct Hs as [Hs _]. exact Hs.
  - cbn [app U.contains U.prefixb] in Hs |- *.
    apply orb_false_iff in Hs. destruct Hs as [Hs _]. exact Hs.
Qed.

Lemma join_cons (sep p q : U.text) (parts : list U.text) :
  U.join sep (p :: q :: parts) = p ++ sep ++ U.join sep (q :: parts).
Proof. reflexivity. Qed.

(** Splitting the joined chunks gives the chunks back. *)
Lemma split_join_blank (chunks : list U.text) :
  chunks <> [] ->
  Forall (fun c => U.contains blank_line (c ++ [U.newline]) = false) chunks ->
  U.split blank_line (U.join blank_line chunks) = chunks.
Proof.
  intros Hn H. induction H as [|c l Hc Hl IH]; [contradiction|].
  destruct l as [|d l].
  - cbn [U.join]. apply split_absent.
    destruct (U.contains blank_line c) eqn:E; [|reflexivity].
    now rewrite (contains_app_r _ _ [U.newline] E) in Hc.
  - rewrite join_cons, split_blank by assumption.
    f_equal. apply IH. discriminate.
Qed.

(** A line that contains the separator has at least two parts. *)
Lemma split_two (x : N) (t line : U.text) :
  U.contains (x :: t) line = true ->
  exists key value parts, U.split (x :: t) line = key :: value :: parts.
Proof.
  unfold U.split. induction line as [|c line IH]; [discriminate|].
  cbn [U.contains U.split_from]. intros H.
  destruct (U.prefixb (x :: t) (c :: line)) eqn:Ep.
  - destruct (split_from_nonempty (x :: t) line
                (Nat.pred (List.length (x :: t)))) as [p [ps ->]].
    now exists [], p, ps.
  - cbn [orb] in H. destruct (IH H) as [k [v [ps ->]]].
    now exists (c :: k), v, ps.
Qed.

(** * Reading the context *)

Lemma colon_space_is : colon_space = [58%N; 32%N].
Proof. reflexivity. Qed.

Lemma dict_item_defined (line : U.text) :
  U.contains colon_space line = true -> exists item, dict_item line = Some item.
Proof.
  intros H. unfold dict_item. rewrite colon_space_is in *.
  destruct (split_two _ _ _ H) as [k [v [ps ->]]]. now eexists.
Qed.

Lemma metadata_items_defined (lines : list U.text) :
  exists items, metadata_items lines = Some items.
Proof.
  induction lines as [|line lines [items IH]]; [now eexists|].
  cbn [metadata_items]. rewrite IH.
  destruct (U.contains colon_space line) eqn:E; [|now eexists].
  destruct (dict_item_defined line E) as [item ->]. now eexists.
Qed.

Lemma read_chunk_defined (chunk : U.text) :
  exists shown, read_chunk chunk = Some shown.
Proof.
  unfold read_chunk.
  destruct (split_from_nonempty [U.newline] chunk 0) as [text [lines E]].
  unfold U.split. rewrite E.
  destruct (metadata_items_defined lines) as [items ->]. now eexists.
Qed.

Lemma read_chunks_defined (chunks : list U.text) :
  exists shown, read_chunks chunks = Some shown
                /\ List.length shown = List.length chunks.
Proof.
  induction chunks as [|c l [shown [IH Hl]]]; [now exists []|].
  cbn [read_chunks]. rewrite IH.
  destruct (read_chunk_defined c) as [s ->].
  exists (s :: shown). split; [reflexivity | simpl; now rewrite Hl].
Qed.

(** X12.  Reading a context never fails, whatever the context is: the
    second part of a split line is only taken from lines that contain the
    separator, and every split has a first part.  At least one chunk is
    shown, also for the empty context. *)
Theorem X12_read_context_defined (context : U.text) :
  exists shown, read_context context = Some shown /\ shown <> [].
Proof.
  unfold read_context.
  destruct (read_chunks_defined (U.split blank_line context))
    as [shown [E Hl]].
  exists shown. split; [exact E|].
  destruct (split_from_nonempty blank_line context 0) as [p [ps Es]].
  unfold U.split in Hl. rewrite Es in Hl.
  destruct shown; [discriminate | discriminate].
Qed.

(** ** Lines stacked under a first line *)

Lemma contains_skip_line (a t : U.text) :
  ~ In U.newline a ->
  U.contains blank_line (a ++ t) = U.contains blank_line t.
Proof.
  induction a as [|x a IH]; intros H; [reflexivity|].
  cbn [app U.contains]. rewrite IH by (intros Hin; apply H; now right).
  assert (Ex : (U.newline =? x)%N = false).
  { apply N.eqb_neq. intros E. apply H. left. now symmetry. }
  unfold blank_line at 1. cbn [U.prefixb]. rewrite Ex. reflexivity.
Qed.

Lemma contains_break (x : N) (s : U.text) :
  x <> U.newline ->
  U.contains blank_line (U.newline :: x :: s)
  = U.contains blank_line (x :: s).
Proof.
  intros H. cbn [U.contains]. unfold blank_line at 1. cbn [U.prefixb].
  assert (Ex : (U.newline =? x)%N = false)
    by (apply N.eqb_neq; congruence).
  rewrite Ex, andb_false_r. reflexivity.
Qed.

Lemma split_stack (lines : list U.text) :
  forall first,
    ~ In U.newline first ->
    Forall (fun l => ~ In U.newline l) lines ->
    U.split [U.newline] (stack first lines) = first :: lines.
Proof.
  induction lines as [|l ls IH]; intros first Hf Hl; unfold stack.
  - cbn [flat_map]. rewrite app_nil_r. apply split_absent.
    destruct (U.contains [U.newline] first) eqn:E; [|reflexivity].
    apply contains_one in E. contradiction.
  - inversion Hl as [|? ? H1 H2]; subst. cbn [flat_map].
    change (first ++ (U.newline :: l) ++ flat_map (cons U.newline) ls)
      with (first ++ [U.newline] ++ stack l ls).
    rewrite split_fresh by assumption. f_equal. now apply IH.
Qed.

Lemma stack_no_blank (lines : list U.text) :
  forall first,
    ~ In U.newline first ->
    Forall (fun l => ~ In U.newline l /\ l <> []) lines ->
    U.contains blank_line (stack first lines ++ [U.newline]) = false.
Proof.
  induction lines as [|l ls IH]; intros first Hf Hl; unfold stack.
  - cbn [flat_map]. rewrite app_nil_r, contains_skip_line by assumption.
    reflexivity.
  - inversion Hl as [|? ? [H1 H1'] H2]; subst. cbn [flat_map].
    rewrite <- app_assoc, contains_skip_line by assumption.
    destruct l as [|x l]; [contradiction|].
    change (((U.newline :: x :: l) ++ flat_map (cons U.newline) ls)
              ++ [U.newline])
      with (U.newline :: x :: (l ++ flat_map (cons U.newline) ls)
              ++ [U.newline]).
    rewrite contains_break by (intros E; apply H1; left; now symmetry).
    change (x :: (l ++ flat_map (cons U.newline) ls) ++ [U.newline])
      with (stack (x :: l) ls ++ [U.newline]).
    now apply IH.
Qed.

(** ** The characters of a citation *)

Lemma join_chars (sep : U.text) (parts : list U.text) (c : N) :
  In c (U.join sep parts) ->
  In c sep \/ exists p, In p parts /\ In c p.
Proof.
  induction parts as [|p parts IH]; [intros []|].
  destruct parts as [|q parts].
  - cbn [U.join]. intros H. right. exists p. split; [now left | assumption].
  - rewrite join_cons. intros H.
    apply in_app_or in H. destruct H as [H | H].
    + right. exists p. split; [now left | assumption].
    + apply in_app_or in H. destruct H as [H | H]; [now left|].
      destruct (IH H) as [Hs | [r [Hr Hc]]]; [now left|].
      right. exists r. split; [now right | assumption].
Qed.

Lemma uint_digits (u : Decimal.uint) (c : N) :
  In c (U.lit (NilEmpty.string_of_uint u)) -> is_digit_code c.
Proof.
  unfold U.lit, is_digit_code.
  induction u; cbn [NilEmpty.string_of_uint list_ascii_of_string List.map];
    try (intros [<- | H]; [vm_compute; split; discriminate | now apply IHu]).
  intros [].
Qed.

Lemma str_of_N_digits (p c : N) : In c (str_of_N p) -> is_digit_code c.
Proof.
  unfold str_of_N, NilZero.string_of_uint.
  destruct (N.to_uint p) eqn:E; try apply uint_digits.
  intros [<- | []]. vm_compute. split; discriminate.
Qed.

Lemma page_part_chars (pages : list N) (c : N) :
  In c (page_part pages) -> c <> U.newline /\ c <> 58%N.
Proof.
  unfold page_part. intros H. apply in_app_or in H. destruct H as [H | H].
  - vm_compute in H. repeat destruct H as [H | H]; subst;
      try (split; discriminate); contradiction.
  - apply join_chars in H. destruct H as [H | [p [Hp Hc]]].
    + vm_compute in H. repeat destruct H as [H | H]; subst;
        try (split; discriminate); contradiction.
    + apply in_map_iff in Hp. destruct Hp as [n [<- _]].
      apply str_of_N_digits in Hc. unfold is_digit_code in Hc.
      unfold U.newline. split; intros ->; lia.
Qed.

Lemma citation_chars (row : Row) (c : N) :
  plain_row row -> In c (citation row) ->
  c <> U.newline /\ c <> 58%N.
Proof.
  intros [_ [Hf [_ [Hc _]]]] H. unfold citation in H.
  apply join_chars in H. destruct H as [H | [p [Hp Hin]]].
  - vm_compute in H. repeat destruct H as [H | H]; subst;
      try (split; discriminate); contradiction.
  - unfold cited in Hp. apply in_app_or in Hp.
    destruct Hp as [Hp | Hp].
    + destruct (U.is_empty (row_filename row)); [destruct Hp|].
      destruct Hp as [<- | []]. split; intros ->; contradiction.
    + destruct (row_page_numbers row) as [[|n [|m pages]]|];
        try destruct Hp.
      destruct (n =? 0)%N; [destruct Hp|].
      destruct Hp as [<- | []].
      change (U.lit "p. " ++ str_of_N n) with (page_part [n]) in Hin.
      now apply page_part_chars in Hin.
Qed.

(** ** One chunk *)

Section Chunks.

Variable empty_array_raises : bool.

(** The truth test has an answer exactly on the testable rows, and the
    parts built are then the expected ones. *)
Lemma source_parts_testable (row : Row) :
  testable empty_array_raises row = true ->
  source_parts empty_array_raises row = Some (cited row).
Proof.
  unfold testable, source_parts, cited, truth, elements.
  destruct (U.is_empty (row_filename row));
    destruct (row_page_numbers row) as [[|n [|m pages]]|];
    cbn [negb]; intros H; try discriminate; try reflexivity.
  - destruct empty_array_raises; [discriminate | reflexivity].
  - destruct (n =? 0)%N; reflexivity.
  - destruct empty_array_raises; [discriminate|].
    now rewrite app_nil_r.
  - destruct (n =? 0)%N; cbn [negb]; [now rewrite app_nil_r | reflexivity].
Qed.

Lemma source_parts_raises (row : Row) :
  testable empty_array_raises row = false ->
  source_parts empty_array_raises row = None.
Proof.
  unfold testable, source_parts, truth.
  destruct (row_page_numbers row) as [[|n [|m pages]]|];
    intros H; try discriminate; try reflexivity.
  destruct empty_array_raises; [reflexivity | discriminate].
Qed.

Lemma chunk_of_raises (row : Row) :
  testable empty_array_raises row = false ->
  chunk_of empty_array_raises row = None.
Proof.
  intros H. unfold chunk_of, source_of, source_text.
  now rewrite source_parts_raises.
Qed.

Lemma chunk_of_written (row : Row) :
  testable empty_array_raises row = true ->
  chunk_of empty_array_raises row = Some (written row).
Proof.
  intros H. unfold chunk_of, source_of, source_text.
  rewrite (source_parts_testable row H).
  cbn [option_map]. f_equal.
  unfold written, stack, source_line, title_line, citation.
  destruct (U.is_empty (row_title row)); cbn [negb flat_map].
  - now rewrite app_nil_r.
  - rewrite app_nil_r. now rewrite <- !app_assoc.
Qed.

Lemma chunk_of_defined (row : Row) :
  chunk_of empty_array_raises row = None
  <-> testable empty_array_raises row = false.
Proof.
  split; [|apply chunk_of_raises].
  destruct (testable empty_array_raises row) eqn:E; [|reflexivity].
  rewrite (chunk_of_written row E). discriminate.
Qed.

(** The call raises exactly when one of the rows does. *)
Lemma contexts_of_raises (rows : list Row) :
  contexts_of empty_array_raises rows = None
  <-> exists row, In row rows /\ testable empty_array_raises row = false.
Proof.
  induction rows as [|row rows IH]; cbn [contexts_of].
  - split; [discriminate | intros [row [[] _]]].
  - destruct (chunk_of empty_array_raises row) as [chunk|] eqn:Ec.
    + destruct (contexts_of empty_array_raises rows) as [contexts|].
      * split; [discriminate|].
        intros [r [[<- | Hin] Hr]].
        -- apply chunk_of_defined in Hr. congruence.
        -- assert (Hn : Some contexts = None)
             by (apply IH; now exists r).
           discriminate.
      * split; [|reflexivity]. intros _.
        destruct (proj1 IH eq_refl) as [r [Hin Hr]].
        exists r. split; [now right | assumption].
    + split; [|reflexivity]. intros _. exists row.
      split; [now left | now apply chunk_of_defined].
Qed.

Lemma contexts_of_testable (rows : list Row) :
  Forall (fun row => testable empty_array_raises row = true) rows ->
  contexts_of empty_array_raises rows = Some (List.map written rows).
Proof.
  induction 1 as [|row rows Hr Hrs IH]; [reflexivity|].
  cbn [contexts_of List.map]. now rewrite (chunk_of_written row Hr), IH.
Qed.

End Chunks.

Lemma source_line_plain (row : Row) :
  plain_row row -> ~ In U.newline (source_line row) /\ source_line row <> [].
Proof.
  intros Hr. split; [|discriminate].
  unfold source_line. intros H. apply in_app_or in H.
  destruct H as [H | H].
  - vm_compute in H. repeat destruct H as [H | H]; discriminate || auto.
  - apply (citation_chars row _ Hr) in H. now destruct H.
Qed.

Lemma title_line_plain (row : Row) :
  plain_row row -> ~ In U.newline (title_line row) /\ title_line row <> [].
Proof.
  intros [_ [_ [Ht _]]]. split; [|discriminate].
  unfold title_line. intros H. apply in_app_or in H.
  destruct H as [H | H]; [|contradiction].
  vm_compute in H. repeat destruct H as [H | H]; discriminate || auto.
Qed.

Lemma no_colon_space (s : U.text) :
  ~ In 58%N s -> U.contains colon_space s = false.
Proof.
  intros H. destruct (U.contains colon_space s) eqn:E; [|reflexivity].
  apply contains_spec in E. destruct E as [a [b ->]]. exfalso. apply H.
  apply in_or_app. right. now left.
Qed.

(** A line made of a key without colon, a colon, a space and a value
    without colon-space is the item of that key and value. *)
Lemma dict_item_line (key value : U.text) :
  ~ In 58%N key -> U.contains colon_space value = false ->
  U.contains colon_space (key ++ colon_space ++ value) = true
  /\ dict_item (key ++ colon_space ++ value) = Some (key, value).
Proof.
  intros Hk Hv. split.
  - apply contains_spec. now exists key, value.
  - unfold dict_item. rewrite colon_space_is.
    rewrite split_fresh by assumption.
    rewrite <- colon_space_is, (split_absent _ _ Hv). reflexivity.
Qed.

Lemma source_line_item (row : Row) :
  plain_row row ->
  U.contains colon_space (source_line row) = true
  /\ dict_item (source_line row) = Some (U.lit "Source", citation row).
Proof.
  intros Hr.
  change (source_line row)
    with (U.lit "Source" ++ colon_space ++ citation row).
  apply dict_item_line.
  - vm_compute. intros H. repeat destruct H as [H | H]; discriminate || auto.
  - apply no_colon_space. intros H.
    apply (citation_chars row _ Hr) in H. now destruct H.
Qed.

Lemma title_line_item (row : Row) :
  plain_row row ->
  U.contains colon_space (title_line row) = true
  /\ dict_item (title_line row) = Some (U.lit "Title", row_title row).
Proof.
  intros [_ [_ [_ [_ Ht]]]].
  change (title_line row)
    with (U.lit "Title" ++ colon_space ++ row_title row).
  apply dict_item_line; [|assumption].
  vm_compute. intros H. repeat destruct H as [H | H]; discriminate || auto.
Qed.

Lemma read_written (row : Row) :
  plain_row row -> read_chunk (written row) = Some (shown_of row).
Proof.
  intros Hr. pose proof Hr as [Ht _].
  destruct (source_line_plain row Hr) as [Hs _].
  destruct (title_line_plain row Hr) as [Hl _].
  destruct (source_line_item row Hr) as [Hc1 Hi1].
  destruct (title_line_item row Hr) as [Hc2 Hi2].
  unfold read_chunk, shown_of, written.
  destruct (U.is_empty (row_title row)) eqn:E.
  - rewrite split_stack by (auto; repeat constructor; assumption).
    cbn [metadata_items]. rewrite Hc1, Hi1. reflexivity.
  - rewrite split_stack by (auto; repeat constructor; assumption).
    cbn [metadata_items]. rewrite Hc1, Hi1, Hc2, Hi2. reflexivity.
Qed.

Lemma written_no_blank (row : Row) :
  plain_row row ->
  U.contains blank_line (written row ++ [U.newline]) = false.
Proof.
  intros Hr. pose proof Hr as [Ht _]. unfold written.
  apply stack_no_blank; [assumption|].
  destruct (U.is_empty (row_title row)); repeat constructor;
    try apply (source_line_plain row Hr); try apply (title_line_plain row Hr).
Qed.

Lemma read_chunks_written (rows : list Row) :
  Forall plain_row rows ->
  read_chunks (List.map written rows) = Some (List.map shown_of rows).
Proof.
  induction 1 as [|row rows Hr Hrs IH]; [reflexivity|].
  cbn [List.map read_chunks]. now rewrite read_written, IH.
Qed.

(** A chunk that spans two pages makes the call raise, whatever the
    NumPy. *)
Lemma get_context_two_pages (empty_array_raises : bool) :
  get_context empty_array_raises two_page_rows = None.
Proof. destruct empty_array_raises; reflexivity. Qed.

(** X13.  [get_context] and the reading of its context.  The page numbers
    of a row are a numpy array, so the test on them has an answer only for
    an array of one page (or none, where NumPy still allows it) and for
    absent page numbers.  When every row is such a row, [get_context]
    returns, and for rows without line break in their text, file name and
    title, without colon in the file name and without colon-space in the
    title, the chunks the chat reads back are, row by row, the text, the
    citation (the file name and, for one page other than 0, that page) and
    the title or, when the row has none, the default title; on no row at
    all one empty chunk is shown, with the source Unknown source.  When
    some row has no answer, and so whenever a row has two or more pages,
    [get_context] raises. *)
Theorem X13_context_round_trip (empty_array_raises : bool)
    (rows : list Row) :
  (Forall (fun row => testable empty_array_raises row = true) rows ->
   Forall plain_row rows ->
   exists context,
     get_context empty_array_raises rows = Some context
     /\ read_context context
        = Some (match rows with
                | [] => [([], unknown_source, default_title)]
                | _ :: _ => List.map shown_of rows
                end))
  /\ (get_context empty_array_raises rows = None
      <-> exists row,
            In row rows /\ testable empty_array_raises row = false)
  /\ (forall row p q pages,
         In row rows -> row_page_numbers row = Some (p :: q :: pages) ->
         get_context empty_array_raises rows = None).
Proof.
  assert (Hnone : get_context empty_array_raises rows = None
                  <-> exists row,
                        In row rows
                        /\ testable empty_array_raises row = false).
  { unfold get_context. rewrite <- contexts_of_raises.
    destruct (contexts_of empty_array_raises rows); cbn [option_map];
      split; congruence. }
  split; [|split; [exact Hnone|]].
  - intros Ht Hp. unfold get_context.
    rewrite (contexts_of_testable _ rows Ht). cbn [option_map].
    eexists. split; [reflexivity|].
    unfold read_context.
    destruct rows as [|row rows]; [reflexivity|].
    rewrite split_join_blank.
    + now apply read_chunks_written.
    + discriminate.
    + apply Forall_forall. intros c Hc. apply in_map_iff in Hc.
      destruct Hc as [r [<- Hin]]. apply written_no_blank.
      rewrite Forall_forall in Hp. now apply Hp.
  - intros row p q pages Hin Hrow. apply Hnone. exists row.
    split; [assumption|]. unfold testable. now rewrite Hrow.
Qed.

(** X13 at three rows: one with file name, a page and title, one with
    none of them and one whose only page is 0, which is not cited. *)
Lemma X13_context_round_trip_witness :
  Forall (fun row => testable true row = true) sample_rows
  /\ Forall plain_row sample_rows
  /\ exists context,
       get_context true sample_rows = Some context
       /\ read_context context
          = Some [ (U.lit "Prices rose.", U.lit "report.pdf - p. 3",
                    U.lit "Market");
                   (U.lit "Rents fell.", [], default_title);
                   (U.lit "Sales grew.", U.lit "cover.pdf",
                    default_title) ].
Proof.
  assert (Ht : Forall (fun row => testable true row = true) sample_rows)
    by (repeat constructor).
  assert (H : Forall plain_row sample_rows).
  { repeat constructor; vm_compute;
      try reflexivity; intros H; repeat destruct H as [H | H];
      discriminate || auto. }
  split; [exact Ht|]. split; [exact H|].
  exact (proj1 (X13_context_round_trip true sample_rows) Ht H).
Defined.

(** * More on the result of the extraction *)

(** X14.  The categories and the values of the result always have the
    same length, which is the number of labels or 10, whichever is
    smaller. *)
Theorem X14_lengths (text : string) :
  let r := extract_data_for_visualization text in
  List.length (categories r) = List.length (values r)
  /\ List.length (categories r) = Nat.min 10 (List.length (labels r)).
Proof.
  cbv zeta. rewrite extract_of_points. cbn [categories values labels].
  rewrite !length_map. split; [reflexivity | apply top_length].
Qed.

(** X15.  As soon as one pattern match is accepted the fallback adds
    nothing: every returned point is an accepted candidate of a pattern,
    and there is at least one. *)
Theorem X15_patterns_silence_fallback (text : string) :
  candidates text <> [] ->
  let r := extract_data_for_visualization text in
  points r <> []
  /\ forall p, In p (points r) -> In p (candidates text).
Proof.
  intros Hc. cbv zeta. rewrite points_extract.
  assert (E : collected text = dedup (candidates text)).
  { unfold collected. destruct (dedup (candidates text)) eqn:Ed;
      [|reflexivity].
    apply dedup_nil in Ed. contradiction. }
  split.
  - intros Ht. apply top_nil in Ht. rewrite E in Ht.
    apply dedup_nil in Ht. contradiction.
  - intros p Hp. apply top_incl in Hp. rewrite E in Hp.
    now apply dedup_incl.
Qed.

(** X15 at a text with a pattern match and fallback keywords. *)
Lemma X15_patterns_silence_fallback_witness :
  let text := "Total market value: 1250"%string in
  candidates text <> []
  /\ found_keywords text = ["total"; "market"; "value"]%string
  /\ categories (extract_data_for_visualization text)
     = ["Total market value"%string]
  /\ points (extract_data_for_visualization text) <> [].
Proof.
  cbv zeta.
  assert (Hc : candidates "Total market value: 1250" <> [])
    by (vm_compute; discriminate).
  split; [exact Hc|]. split; [vm_compute; reflexivity|].
  split; [vm_compute; reflexivity|].
  exact (proj1 (X15_patterns_silence_fallback _ Hc)).
Defined.

(** X16.  Ties keep the order of collection: when at most ten points were
    collected, the returned points of any one value are in the order in
    which they were collected. *)
Theorem X16_ties_keep_collection_order (text : string) (v : Flt.float) :
  List.length (points (collect text)) <= 10 ->
  Flt.is_positive v = true ->
  filter (fun p => same_value v (snd p))
         (points (extract_data_for_visualization text))
  = filter (fun p => same_value v (snd p)) (points (collect text)).
Proof.
  intros Hl Hv. rewrite points_collect in *. rewrite points_extract.
  unfold top. rewrite firstn_all2 by now rewrite sort_desc_length.
  apply sort_desc_stable; [assumption | apply collected_positive].
Qed.

(** X16 at a text with two points of value 5 before a point of value
    9. *)
Lemma X16_ties_keep_collection_order_witness :
  let text := "Alpha: 5, Bravo: 5, Delta: 9"%string in
  List.length (points (collect text)) <= 10
  /\ List.map fst (points (collect text)) = ["Alpha"; "Bravo"; "Delta"]%string
  /\ List.map fst (points (extract_data_for_visualization text))
     = ["Delta"; "Alpha"; "Bravo"]%string
  /\ List.map fst
       (filter (fun p => same_value (Flt.of_decimal 5 0) (snd p))
               (points (extract_data_for_visualization text)))
     = ["Alpha"; "Bravo"]%string.
Proof.
  cbv zeta.
  assert (Hl : List.length
                 (points (collect "Alpha: 5, Bravo: 5, Delta: 9")) <= 10)
    by (vm_compute; lia).
  assert (Hv : Flt.is_positive (Flt.of_decimal 5 0) = true)
    by (vm_compute; reflexivity).
  split; [exact Hl|]. split; [vm_compute; reflexivity|].
  split; [vm_compute; reflexivity|].
  rewrite (X16_ties_keep_collection_order _ _ Hl Hv).
  vm_compute. reflexivity.
Defined.
